(** * Forecast summary table: [ecflow/spt_extract_plain_table.py]

    A shallow embedding of [extract_summary_table]: the 3-hour grid
    ([interp_x]), the three classification chains of the per-reach loop
    (color, thickness, exceeded return period), the [site_summary] frame
    and the run-level [try] ... [except] around the whole assembly.

    Conventions.
    - Flow values are rationals ([Q]); the comparisons of the source are
      the boolean comparisons below.
    - Times are counted in whole minutes, the resolution that the format
      ["%m/%d/%y %H:%M"] keeps. How a raw time stamp becomes the string
      of [dates], and which minute pandas reads back from such a string
      (two-digit year included), is left to three section variables.
    - [rp_df] is the return-period frame, indexed by river id; the index
      is taken to hold each id at most once.
    - The numerical routines of the libraries the script calls (the
      values of the PCHIP interpolant, rounding to two places, the
      rendering of a timestamp) are section variables.
    - The listing of a workspace gives each file name with the dataset
      stored in the file; [os.listdir] and [os.path.isdir] of the main
      block are section variables. *)

From Stdlib Require Import ZArith QArith List Ascii String Lia Lqa Bool.
From stdpp Require Import base gmap.
Import ListNotations.
Local Open Scope Z_scope.
Local Open Scope string_scope.
Local Open Scope list_scope.

(** ** Exceptions and results *)

Inductive exn : Type :=
| IndexError
| KeyError
| ValueError
| TypeError.

Inductive result (A : Type) : Type :=
| Return (a : A)
| Raise (e : exn).

Arguments Return {A} a.
Arguments Raise {A} e.

#[global] Instance result_ret : MRet result := fun _ a => Return a.

#[global] Instance result_bind : MBind result := fun _ _ k m =>
  match m with
  | Return a => k a
  | Raise e => Raise e
  end.

Definition raises {A : Type} (m : result A) : Prop :=
  exists e, m = Raise e.

(** ** Comparisons on flow values *)

Definition Qgtb (a b : Q) : bool := negb (Qle_bool a b).
Definition Qltb (a b : Q) : bool := Qgtb b a.
Definition Qleb (a b : Q) : bool := Qle_bool a b.

(** ** The return-period frame *)

Inductive rp_column : Type :=
| return_2 | return_5 | return_10 | return_25 | return_50 | return_100.

Record thresholds : Type := Thresholds {
  t2 : Q; t5 : Q; t10 : Q; t25 : Q; t50 : Q; t100 : Q
}.

Definition column (c : rp_column) (th : thresholds) : Q :=
  match c with
  | return_2 => t2 th
  | return_5 => t5 th
  | return_10 => t10 th
  | return_25 => t25 th
  | return_50 => t50 th
  | return_100 => t100 th
  end.

(** [rp_df.loc[comid, col]]: a [KeyError] when the index lacks [comid]. *)
Definition loc (rp_df : gmap Z thresholds) (comid : Z) (c : rp_column) : result Q :=
  match rp_df !! comid with
  | Some th => Return (column c th)
  | None => Raise KeyError
  end.

(** ** The classification chains (body of [for f_mean in int_mean]) *)

Definition color_of (rp_df : gmap Z thresholds) (comid : Z) (f_mean : Q) : result string :=
  r50 ← loc rp_df comid return_50;
  if Qgtb f_mean r50 then Return "purple" else
  r10 ← loc rp_df comid return_10;
  if Qgtb f_mean r10 then Return "red" else
  r2 ← loc rp_df comid return_2;
  if Qgtb f_mean r2 then Return "yellow" else
  Return "blue".

Definition thickness_of (f_mean : Q) : string :=
  if Qltb f_mean 20 then "1"
  else if Qleb 20 f_mean && Qltb f_mean 250 then "2"
  else if Qleb 250 f_mean && Qltb f_mean 1500 then "3"
  else if Qleb 1500 f_mean && Qltb f_mean 10000 then "4"
  else if Qleb 10000 f_mean && Qltb f_mean 30000 then "5"
  else "6".

Definition ret_per_of (rp_df : gmap Z thresholds) (comid : Z) (f_mean : Q) : result string :=
  r100 ← loc rp_df comid return_100;
  if Qgtb f_mean r100 then Return "100" else
  r50 ← loc rp_df comid return_50;
  if Qgtb f_mean r50 then Return "50" else
  r25 ← loc rp_df comid return_25;
  if Qgtb f_mean r25 then Return "25" else
  r10 ← loc rp_df comid return_10;
  if Qgtb f_mean r10 then Return "10" else
  r5 ← loc rp_df comid return_5;
  if Qgtb f_mean r5 then Return "5" else
  r2 ← loc rp_df comid return_2;
  if Qgtb f_mean r2 then Return "2" else
  Return "0".

(** The loop over [int_mean]: each pass appends to the three lists. *)
Fixpoint classify (rp_df : gmap Z thresholds) (comid : Z) (int_mean : list Q)
    (colors thicknesses ret_pers : list string)
    : result (list string * list string * list string) :=
  match int_mean with
  | [] => Return (colors, thicknesses, ret_pers)
  | f_mean :: rest =>
      color ← color_of rp_df comid f_mean;
      let colors := colors ++ [color] in
      let thickness := thickness_of f_mean in
      let thicknesses := thicknesses ++ [thickness] in
      ret_per ← ret_per_of rp_df comid f_mean;
      let ret_pers := ret_pers ++ [ret_per] in
      classify rp_df comid rest colors thicknesses ret_pers
  end.

(** ** Timestamps and the 3-hour grid *)

(** [pd.date_range(start=..., end=..., freq=...)]: the points [start],
    [start + freq], ... that do not pass [end]. *)
Definition date_range (start end_ freq : Z) : list Z :=
  map (fun k => start + freq * Z.of_nat k)
      (seq 0 (Z.to_nat ((end_ - start) / freq + 1))).

(** [l[0]] and [l[-1]]. *)
Definition item_first {A : Type} (l : list A) : result A :=
  match l with
  | [] => Raise IndexError
  | a :: _ => Return a
  end.

Fixpoint item_last {A : Type} (l : list A) : result A :=
  match l with
  | [] => Raise IndexError
  | [a] => Return a
  | _ :: rest => item_last rest
  end.

(** Three hours, in minutes: [freq='3H']. *)
Definition freq_3H : Z := 180.

Definition interp_x (dates : list Z) : result (list Z) :=
  start ← item_first dates;
  end_ ← item_last dates;
  Return (date_range start end_ freq_3H).

(** ** Rows of the summary table *)

Record row : Type := Row {
  row_comid : Z;
  row_timestamp : string;
  row_max : Q;
  row_mean : Q;
  row_color : string;
  row_thickness : string;
  row_ret_per : string
}.

(** [pd.DataFrame(data={...})] of seven series that share the index
    [0 .. n-1]: row [j] takes entry [j] of each series. *)
Fixpoint frame (c0 : list Z) (c1 : list string) (c2 c3 : list Q)
    (c4 c5 c6 : list string) : list row :=
  match c0, c1, c2, c3, c4, c5, c6 with
  | a0 :: c0, a1 :: c1, a2 :: c2, a3 :: c3, a4 :: c4, a5 :: c5, a6 :: c6 =>
      Row a0 a1 a2 a3 a4 a5 a6 :: frame c0 c1 c2 c3 c4 c5 c6
  | _, _, _, _, _, _, _ => []
  end.

(** [range(n)] *)
Definition range (n : nat) : list Z := map Z.of_nat (seq 0 n).

(** ** Values bound by the loop header *)

#[local] Unset Elimination Schemes.
Inductive pyval : Type :=
| PyInt (z : Z)
| PyStr (s : string)
| PyFloats (l : list Q)
| PyTuple (l : list pyval).
#[local] Set Elimination Schemes.

(** [zip(comids, new_dates, maxlist, meanlist)]: stops with the shortest. *)
Fixpoint zip4 (comids : list Z) (new_dates : list string)
    (maxlist meanlist : list (list Q)) : list pyval :=
  match comids, new_dates, maxlist, meanlist with
  | comid :: comids, date :: new_dates, maxes :: maxlist, means :: meanlist =>
      PyTuple [PyInt comid; PyStr date; PyFloats maxes; PyFloats means]
      :: zip4 comids new_dates maxlist meanlist
  | _, _, _, _ => []
  end.

(** [enumerate(it)]: the pairs [(index, element)]. *)
Fixpoint enumerate_from (index : nat) (it : list pyval) : list (list pyval) :=
  match it with
  | [] => []
  | v :: rest => [PyInt (Z.of_nat index); v] :: enumerate_from (S index) rest
  end.

Definition enumerate (it : list pyval) : list (list pyval) := enumerate_from 0 it.

(** Unpacking a tuple into [n] targets: a [ValueError] unless the tuple
    has exactly [n] elements. *)
Definition unpack (n : nat) (t : list pyval) : result (list pyval) :=
  if (length t =? n)%nat then Return t else Raise ValueError.

(** ** The run *)

(** What the script has read when the assembly starts: the river ids and
    the times (in seconds) of the statistics files, the rounded maxima
    and means of each reach, and the return-period frame. *)
Record forecast : Type := Forecast {
  comids : list Z;
  rawdates : list Z;
  maxlist : list (list Q);
  meanlist : list (list Q);
  rp_df : gmap Z thresholds
}.

(** What a run leaves: the value it returns, the table handed to
    [to_csv] if any, and the exceptions logged by the handler. *)
Record outcome : Type := Outcome {
  returned : option string;
  written : option (list row);
  logged : list exn
}.

Fixpoint strictly_increasing (x : list Z) : bool :=
  match x with
  | a :: (b :: _) as rest => (a <? b)%Z && strictly_increasing rest
  | _ => true
  end.

Section Assembly.

(** Value at a query time of the PCHIP interpolant through the points
    [(x, y)]. *)
Variable pchip_value : list Z -> list Q -> Z -> Q.
(** [.round(2)] *)
Variable round2 : Q -> Q.
(** [.strftime("%m/%d/%y %H:%M")] *)
Variable strftime : Z -> string.

(** [pchip(x, y)]: the constructor validates its input, raising a
    [ValueError] for fewer than two points, for [y] of another length
    than [x], and for [x] not strictly increasing; the interpolator it
    returns gives one value per query time. *)
Definition pchip (x : list Z) (y : list Q) : result (list Z -> list Q) :=
  if (length x <? 2)%nat then Raise ValueError
  else if negb (length y =? length x)%nat then Raise ValueError
  else if negb (strictly_increasing x) then Raise ValueError
  else Return (map (pchip_value x y)).

(** Body of the loop over the reaches, once its targets are bound. *)
Definition site_summary (rp_df : gmap Z thresholds) (dt_dates interp_x : list Z)
    (new_dates : list string) (comid : Z) (maxes means : list Q)
    : result (list row) :=
  max_interpolator ← pchip dt_dates maxes;
  mean_interpolator ← pchip dt_dates means;
  let int_max := max_interpolator interp_x in
  let int_mean := mean_interpolator interp_x in
  '(colors, thicknesses, ret_pers) ← classify rp_df comid int_mean [] [] [];
  Return (frame (range (length new_dates)) new_dates
                (map round2 int_max) (map round2 int_mean)
                colors thicknesses ret_pers).

(** One pass of
    [for index, comid, date, maxes, means in enumerate(zip(...))]:
    the item is unpacked into the five targets, then the body runs.
    Targets of another kind than the body's operations accept end in a
    [TypeError]. *)
Definition loop_step (rp_df : gmap Z thresholds) (dt_dates interp_x : list Z)
    (new_dates : list string) (item : list pyval) : result (list row) :=
  targets ← unpack 5 item;
  match targets with
  | [_; PyInt comid; _; PyFloats maxes; PyFloats means] =>
      site_summary rp_df dt_dates interp_x new_dates comid maxes means
  | _ => Raise TypeError
  end.

(** The loop: [summary_table_df = pd.concat([summary_table_df, site_summary])]. *)
Fixpoint for_each (step : list pyval -> result (list row))
    (items : list (list pyval)) (summary_table_df : list row)
    : result (list row) :=
  match items with
  | [] => Return summary_table_df
  | item :: rest =>
      site ← step item;
      for_each step rest (summary_table_df ++ site)
  end.

(** [dt.datetime.utcfromtimestamp(date).strftime("%m/%d/%y %H:%M")]: the
    string of a raw time stamp; raises for a stamp that [datetime] does
    not hold. *)
Variable utc_string : Z -> result string.
(** The minute that [pd.date_range] reads from the string it is given as
    [start] or [end]. *)
Variable timestamp : string -> Z.
(** The minute that [pd.to_datetime] reads from a string of [dates]. *)
Variable to_datetime : string -> Z.

(** [for date in rawdates: dates.append(...)] (lines 84-86). *)
Fixpoint format_dates (rawdates : list Z) (dates : list string)
    : result (list string) :=
  match rawdates with
  | [] => Return dates
  | date :: rest =>
      s ← utc_string date;
      format_dates rest (dates ++ [s])
  end.

(** The [try] block, from the dates to the table handed to [to_csv]:
    [pd.date_range] reads the first and the last of [dates],
    [pd.to_datetime] reads them all. *)
Definition summary_table (f : forecast) : result (list row) :=
  dates ← format_dates (rawdates f) [];
  grid ← interp_x (map timestamp dates);
  let new_dates := map strftime grid in
  let dt_dates := map to_datetime dates in
  for_each (loop_step (rp_df f) dt_dates grid new_dates)
           (enumerate (zip4 (comids f) new_dates (maxlist f) (meanlist f)))
           [].

(** The handler of the run: a table goes to [to_csv] and the run reports
    success; an exception is logged and the run returns nothing. *)
Definition handle (r : result (list row)) : outcome :=
  match r with
  | Return t => Outcome (Some "Stat Success") (Some t) []
  | Raise e => Outcome None None [e]
  end.

(** [try: ...; to_csv(...); return 'Stat Success'] and
    [except Exception as e: logging.debug(e)]. *)
Definition extract_summary_table (f : forecast) : outcome :=
  match summary_table f with
  | Return t => Outcome (Some "Stat Success") (Some t) []
  | Raise e => Outcome None None [e]
  end.

End Assembly.

(** ** Severity scales *)

Definition color_scale : list string := ["blue"; "yellow"; "red"; "purple"].
Definition thickness_scale : list string := ["1"; "2"; "3"; "4"; "5"; "6"].
Definition ret_per_scale : list string := ["0"; "2"; "5"; "10"; "25"; "50"; "100"].

(** Position of a label on its scale. *)
Fixpoint ordinal (scale : list string) (s : string) : option nat :=
  match scale with
  | [] => None
  | x :: rest => if String.eqb x s then Some O else option_map S (ordinal rest s)
  end.

Definition severity_le (scale : list string) (a b : string) : Prop :=
  match ordinal scale a, ordinal scale b with
  | Some i, Some j => (i <= j)%nat
  | _, _ => False
  end.

(** The invariant of a threshold row. *)
Definition increasing (th : thresholds) : Prop :=
  (t2 th <= t5 th /\ t5 th <= t10 th /\ t10 th <= t25 th /\
   t25 th <= t50 th /\ t50 th <= t100 th)%Q.

(** Closed forms of the two chains that read [rp_df], for a reach whose
    row is [th]. *)
Definition color_chain (th : thresholds) (f_mean : Q) : string :=
  if Qgtb f_mean (t50 th) then "purple"
  else if Qgtb f_mean (t10 th) then "red"
  else if Qgtb f_mean (t2 th) then "yellow"
  else "blue".

Definition ret_per_chain (th : thresholds) (f_mean : Q) : string :=
  if Qgtb f_mean (t100 th) then "100"
  else if Qgtb f_mean (t50 th) then "50"
  else if Qgtb f_mean (t25 th) then "25"
  else if Qgtb f_mean (t10 th) then "10"
  else if Qgtb f_mean (t5 th) then "5"
  else if Qgtb f_mean (t2 th) then "2"
  else "0".

(** ** Blocks of rows *)

(** The items that the loop of a run goes through. *)
Definition loop_items (strftime : Z -> string) (f : forecast) (grid : list Z)
    : list (list pyval) :=
  enumerate (zip4 (comids f) (map strftime grid) (maxlist f) (meanlist f)).

(** A block is complete for a reach when it holds one row per grid
    timestamp, in grid order, each with the timestamp, the rounded
    interpolated maximum and mean, and the three labels that the chains
    give to the interpolated mean. *)
Definition complete_block (pchip_value : list Z -> list Q -> Z -> Q)
    (round2 : Q -> Q) (strftime : Z -> string)
    (rp_df : gmap Z thresholds) (dt_dates grid : list Z)
    (comid : Z) (maxes means : list Q) (block : list row) : Prop :=
  length block = length grid /\
  forall (j : nat) (t : Z), nth_error grid j = Some t ->
    exists r : row,
      nth_error block j = Some r /\
      row_timestamp r = strftime t /\
      row_max r = round2 (pchip_value dt_dates maxes t) /\
      row_mean r = round2 (pchip_value dt_dates means t) /\
      color_of rp_df comid (pchip_value dt_dates means t) = Return (row_color r) /\
      row_thickness r = thickness_of (pchip_value dt_dates means t) /\
      ret_per_of rp_df comid (pchip_value dt_dates means t) = Return (row_ret_per r).

(** Containment of a failure to its reach, as a property of every run:
    when the block of one reach of the run cannot be built, every reach
    of the run whose own block can be built still has this block in the
    written table. *)
Definition per_reach_containment : Prop :=
  forall (pchip_value : list Z -> list Q -> Z -> Q) (round2 : Q -> Q)
         (strftime : Z -> string) (utc_string : Z -> result string)
         (timestamp to_datetime : string -> Z)
         (f : forecast) (dates : list string) (grid : list Z)
         (j : nat) (comid_j : Z) (maxes_j means_j : list Q),
    format_dates utc_string (rawdates f) [] = Return dates ->
    interp_x (map timestamp dates) = Return grid ->
    nth_error (comids f) j = Some comid_j ->
    nth_error (maxlist f) j = Some maxes_j ->
    nth_error (meanlist f) j = Some means_j ->
    raises (site_summary pchip_value round2 (rp_df f) (map to_datetime dates)
              grid (map strftime grid) comid_j maxes_j means_j) ->
    forall (i : nat) (comid : Z) (maxes means : list Q) (block : list row),
      nth_error (comids f) i = Some comid ->
      nth_error (maxlist f) i = Some maxes ->
      nth_error (meanlist f) i = Some means ->
      site_summary pchip_value round2 (rp_df f) (map to_datetime dates) grid
                   (map strftime grid) comid maxes means = Return block ->
      exists table before after : list row,
        written (extract_summary_table pchip_value round2 strftime
                   utc_string timestamp to_datetime f) = Some table /\
        table = before ++ block ++ after.

(** ** Sample runs *)

Definition rp_101 : thresholds := Thresholds 10 20 100 500 1000 5000.

(** One reach, sampled at [t0], [t0 + 1h] and [t0 + 5h]. *)
Definition one_reach : forecast :=
  Forecast [101] [0; 3600; 18000]
           [[5; 60; 5000]%Q] [[5; 50; 5000]%Q]
           {[ 101 := rp_101 ]}.

(** The same reach, followed by a reach without a row of thresholds. *)
Definition two_reaches : forecast :=
  Forecast [101; 102] [0; 3600; 18000]
           [[5; 60; 5000]%Q; [7; 70; 7000]%Q] [[5; 50; 5000]%Q; [7; 60; 6000]%Q]
           {[ 101 := rp_101 ]}.

(** Stand-ins for the library routines, for evaluating sample runs:
    the value of the nearest sample on the left, no rounding, and a
    label for each of the first grid points. *)
Fixpoint step_value (x : list Z) (y : list Q) (t : Z) : Q :=
  match x, y with
  | a :: x, b :: y =>
      match x with
      | a' :: _ => if (t <? a')%Z then b else step_value x y t
      | [] => b
      end
  | _, _ => 0%Q
  end.

Definition no_round (q : Q) : Q := q.

Definition minute_label (t : Z) : string :=
  if (t =? 0)%Z then "t0" else if (t =? 180)%Z then "t0+3h" else "later".

(** Stand-ins for the date routines on the stamps of the sample runs:
    the strings of 0 s, 3600 s, 3630 s and 18000 s after the epoch, and
    the minutes read back from them. *)
Definition sample_utc (date : Z) : result string :=
  if (date =? 0)%Z then Return "01/01/70 00:00"
  else if (date =? 3600)%Z then Return "01/01/70 01:00"
  else if (date =? 3630)%Z then Return "01/01/70 01:00"
  else if (date =? 18000)%Z then Return "01/01/70 05:00"
  else Raise ValueError.

Definition sample_minute (s : string) : Z :=
  if String.eqb s "01/01/70 01:00" then 60
  else if String.eqb s "01/01/70 05:00" then 300
  else 0.


(** ** Paths *)

(** [needle in hay] on strings. *)
Fixpoint contains (needle hay : string) : bool :=
  String.prefix needle hay ||
  match hay with
  | EmptyString => false
  | String _ rest => contains needle rest
  end.

Definition is_sep (c : ascii) : bool := Ascii.eqb c "/"%char.

(** [p.endswith('/')] *)
Fixpoint endswith_sep (p : string) : bool :=
  match p with
  | EmptyString => false
  | String c EmptyString => is_sep c
  | String _ rest => endswith_sep rest
  end.

(** [os.path.join(a, b)]: [b] alone when it is absolute; otherwise [a]
    and [b], with a separator between them unless [a] is empty or ends
    with one. *)
Definition path_join (a b : string) : string :=
  if String.prefix "/" b then b
  else if String.eqb a "" || endswith_sep a then (a ++ b)%string
  else (a ++ "/" ++ b)%string.

Fixpoint has_sep (p : string) : bool :=
  match p with
  | EmptyString => false
  | String c rest => is_sep c || has_sep rest
  end.

(** [p[:i], p[i:]] for [i = p.rfind('/') + 1]. *)
Fixpoint cut_last_sep (p : string) : string * string :=
  match p with
  | EmptyString => (EmptyString, EmptyString)
  | String c rest =>
      if has_sep rest then
        let '(head, tail) := cut_last_sep rest in (String c head, tail)
      else if is_sep c then (String c EmptyString, rest)
      else (EmptyString, String c rest)
  end.

(** [head.rstrip('/')] *)
Fixpoint rstrip_sep (head : string) : string :=
  match head with
  | EmptyString => EmptyString
  | String c rest =>
      match rstrip_sep rest with
      | EmptyString => if is_sep c then EmptyString else String c EmptyString
      | stripped => String c stripped
      end
  end.

(** [head == '/' * len(head)] *)
Fixpoint all_sep (head : string) : bool :=
  match head with
  | EmptyString => true
  | String c rest => is_sep c && all_sep rest
  end.

(** [os.path.split(p)]: the last component is the tail; the head loses
    its trailing separators unless it consists of separators only. *)
Definition path_split (p : string) : string * string :=
  let '(head, tail) := cut_last_sep p in
  if negb (String.eqb head "") && negb (all_sep head)
  then (rstrip_sep head, tail)
  else (head, tail).

(** [s.replace('.', '')] *)
Fixpoint remove_dots (s : string) : string :=
  match s with
  | EmptyString => EmptyString
  | String c rest =>
      if Ascii.eqb c "."%char then remove_dots rest else String c (remove_dots rest)
  end.

(** A name as a directory listing gives it: not empty, without a
    separator. *)
Definition is_name (n : string) : Prop := n <> EmptyString /\ has_sep n = false.

(** Name of the csv file of a workspace (lines 49-51). *)
Definition file_name (workspace : string) : string :=
  let date_string := remove_dots (snd (path_split workspace)) in
  let full_name := snd (path_split (fst (path_split workspace))) in
  ("summary_table_" ++ full_name ++ "_" ++ date_string ++ ".csv")%string.

(** Path handed to [to_csv] (line 190). *)
Definition csv_path (workspace : string) : string :=
  path_join workspace (file_name workspace).

(** ** The statistics files *)

(** What the script reads of a statistics file: the variables [rivid],
    [time] and [Qout] (one row of flows per reach). *)
Record dataset : Type := Dataset {
  rivid : list Z;
  time : list Z;
  Qout : list (list Q)
}.

(** The files of the workspace whose name starts with "nces", under their
    joined path, in the order of the listing. A listing gives each file
    name with the dataset stored in the file. *)
Fixpoint nclist (workspace : string) (listing : list (string * dataset))
    : list (string * dataset) :=
  match listing with
  | [] => []
  | (file, res) :: rest =>
      if String.prefix "nces" file
      then (path_join workspace file, res) :: nclist workspace rest
      else nclist workspace rest
  end.

(** [sorted(nclist)]: by path, keeping the order of equal paths. *)
Fixpoint insert_by_path (f : string * dataset) (l : list (string * dataset))
    : list (string * dataset) :=
  match l with
  | [] => [f]
  | g :: rest =>
      if String.leb (fst f) (fst g) then f :: l else g :: insert_by_path f rest
  end.

Definition sorted (l : list (string * dataset)) : list (string * dataset) :=
  fold_right insert_by_path [] l.

(** The files that feed [maxlist], and those that feed [meanlist]. *)
Definition feeds_maxlist (f : string * dataset) : bool :=
  contains "max" (fst f).

Definition feeds_meanlist (f : string * dataset) : bool :=
  negb (contains "max" (fst f)) && contains "avg" (fst f).

(** [Qout[index, :]] *)
Definition Qout_row (res : dataset) (index : nat) : result (list Q) :=
  match nth_error (Qout res) index with
  | Some q => Return q
  | None => Raise IndexError
  end.

Section Loading.

(** [.round(2)] *)
Variable round2 : Q -> Q.

(** [for index, comid in enumerate(comids)] for one file (lines 110-114):
    a path with 'max' in it feeds [maxlist], another path with 'avg' in
    it feeds [meanlist], any other path feeds neither. *)
Fixpoint load_file (ncfile : string) (res : dataset) (index : nat)
    (comids : list Z) (maxlist meanlist : list (list Q))
    : result (list (list Q) * list (list Q)) :=
  match comids with
  | [] => Return (maxlist, meanlist)
  | _ :: rest =>
      if contains "max" ncfile then
        q ← Qout_row res index;
        load_file ncfile res (S index) rest (maxlist ++ [map round2 q]) meanlist
      else if contains "avg" ncfile then
        q ← Qout_row res index;
        load_file ncfile res (S index) rest maxlist (meanlist ++ [map round2 q])
      else load_file ncfile res (S index) rest maxlist meanlist
  end.

(** [for ncfile in sorted(nclist)] (lines 103-114), given the files
    already sorted. *)
Fixpoint load_files (files : list (string * dataset)) (comids : list Z)
    (maxlist meanlist : list (list Q))
    : result (list (list Q) * list (list Q)) :=
  match files with
  | [] => Return (maxlist, meanlist)
  | (ncfile, res) :: rest =>
      '(maxlist, meanlist) ← load_file ncfile res 0 comids maxlist meanlist;
      load_files rest comids maxlist meanlist
  end.

Variable pchip_value : list Z -> list Q -> Z -> Q.
Variable strftime : Z -> string.
Variable utc_string : Z -> result string.
Variable timestamp : string -> Z.
Variable to_datetime : string -> Z.

(** The [try] block from the listing of the workspace on (lines 82-188). *)
Definition summary_table_of_files (files : list (string * dataset))
    (rp_df : gmap Z thresholds) : result (list row) :=
  first ← item_first files;
  let comids := rivid (snd first) in
  let rawdates := time (snd first) in
  dates ← format_dates utc_string rawdates [];
  grid ← interp_x (map timestamp dates);
  let new_dates := map strftime grid in
  let dt_dates := map to_datetime dates in
  '(maxlist, meanlist) ← load_files (sorted files) comids [] [];
  for_each (loop_step pchip_value round2 rp_df dt_dates grid new_dates)
           (enumerate (zip4 comids new_dates maxlist meanlist))
           [].

(** The run of a workspace, from its listing. *)
Definition extract_summary_table_of_files (workspace : string)
    (listing : list (string * dataset)) (rp_df : gmap Z thresholds) : outcome :=
  match summary_table_of_files (nclist workspace listing) rp_df with
  | Return t => Outcome (Some "Stat Success") (Some t) []
  | Raise e => Outcome None None [e]
  end.

End Loading.

(** ** The workspaces of a run of the script (lines 222-234) *)

Definition exclude_list : list string := [].

Section Main.

(** [os.listdir] and [os.path.isdir] *)
Variable listdir : string -> list string.
Variable isdir : string -> bool.

Definition watersheds (workdir : string) : list string :=
  map (path_join workdir)
      (List.filter (fun d => isdir (path_join workdir d)) (listdir workdir)).

(** The list [dates] of the main block: the folders handed to
    [extract_summary_table]. *)
Definition main_dates (workdir : string) : list string :=
  flat_map
    (fun watershed =>
       flat_map
         (fun d =>
            if negb (existsb (fun excluded => contains excluded watershed) exclude_list)
               && isdir (path_join watershed d)
            then [path_join watershed d] else [])
         (listdir watershed))
    (watersheds workdir).

End Main.


(** ** Sample workspaces *)

(** The listing of a workspace after the statistics are computed: the
    three statistics files of one reach and a forecast file. *)
Definition sample_listing : list (string * dataset) :=
  [("nces.max.nc", Dataset [101] [0; 3600; 18000] [[5; 60; 5000]%Q]);
   ("Qout_1.nc", Dataset [101] [0; 3600; 18000] [[4; 40; 4000]%Q]);
   ("nces.avg.nc", Dataset [101] [0; 3600; 18000] [[5; 50; 5000]%Q]);
   ("nces.min.nc", Dataset [101] [0; 3600; 18000] [[1; 2; 3]%Q])].

(** The listing of a workspace whose statistics files hold the two
    reaches of [two_reaches]. *)
Definition two_reaches_listing : list (string * dataset) :=
  [("nces.avg.nc",
    Dataset [101; 102] [0; 3600; 18000] [[5; 50; 5000]%Q; [7; 60; 6000]%Q]);
   ("nces.max.nc",
    Dataset [101; 102] [0; 3600; 18000] [[5; 60; 5000]%Q; [7; 70; 7000]%Q]);
   ("nces.min.nc",
    Dataset [101; 102] [0; 3600; 18000] [[1; 2; 3]%Q; [2; 3; 4]%Q])].

(** A listing whose file of means has no row. *)
Definition short_listing : list (string * dataset) :=
  [("nces.max.nc", Dataset [101] [0; 3600; 18000] [[5; 60; 5000]%Q]);
   ("nces.avg.nc", Dataset [101] [0; 3600; 18000] [])].

(** A listing of files without a reach. *)
Definition reachless_listing : list (string * dataset) :=
  [("nces.avg.nc", Dataset [] [0; 3600; 18000] []);
   ("nces.max.nc", Dataset [] [0; 3600; 18000] [])].

(** An item of the shape that the loop header asks for, and a pair as
    [enumerate] gives it. *)
Definition five_item : list pyval :=
  [PyInt 0; PyInt 101; PyStr "t0"; PyFloats [5; 60; 5000]%Q; PyFloats [5; 50; 5000]%Q].

Definition pair_item : list pyval :=
  [PyInt 1; PyTuple [PyInt 102; PyStr "t0+3h"; PyFloats [7%Q]; PyFloats [7%Q]]].

(** The block of [five_item] under the stand-ins, on the grid [t0],
    [t0 + 3h]. *)
Definition five_item_block : list row :=
  [Row 0 "t0" 5 5 "blue" "1" "0"; Row 1 "t0+3h" 60 50 "yellow" "2" "5"].

(** The first statistics file of [sample_listing] under two workspaces,
    and the file of means of [short_listing]. *)
Definition sample_max_file (workspace : string) : string * dataset :=
  (path_join workspace "nces.max.nc", Dataset [101] [0; 3600; 18000] [[5; 60; 5000]%Q]).

Definition short_avg_file : string * dataset :=
  ("/out/w/d/nces.avg.nc", Dataset [101] [0; 3600; 18000] []).

(** * Properties *)

(** ** Comparisons *)

Lemma Qgtb_true (a b : Q) : Qgtb a b = true <-> (b < a)%Q.
Proof.
  unfold Qgtb. rewrite negb_true_iff, <- not_true_iff_false, Qle_bool_iff.
  split; [apply Qnot_le_lt | apply Qlt_not_le].
Qed.

Lemma Qgtb_false (a b : Q) : Qgtb a b = false <-> (a <= b)%Q.
Proof. unfold Qgtb. rewrite negb_false_iff. apply Qle_bool_iff. Qed.

Lemma Qgtb_cases (a b : Q) :
  {Qgtb a b = true /\ (b < a)%Q} + {Qgtb a b = false /\ (a <= b)%Q}.
Proof.
  destruct (Qgtb a b) eqn:E; [left | right]; split; trivial.
  - now apply Qgtb_true.
  - now apply Qgtb_false.
Qed.

Lemma Qleb_cases (a b : Q) :
  {Qleb a b = true /\ (a <= b)%Q} + {Qleb a b = false /\ (b < a)%Q}.
Proof.
  unfold Qleb. destruct (Qle_bool a b) eqn:E; [left | right]; split; trivial.
  - now apply Qle_bool_iff.
  - apply Qnot_le_lt. rewrite <- Qle_bool_iff. congruence.
Qed.

(** Splits every comparison of the goal, keeping the order facts and
    dropping the branches they contradict. *)
Ltac split_comparisons :=
  repeat match goal with
  | |- context [Qgtb ?a ?b] =>
      destruct (Qgtb_cases a b) as [[-> ?] | [-> ?]]; cbn [andb];
      try (exfalso; lra)
  | |- context [Qleb ?a ?b] =>
      destruct (Qleb_cases a b) as [[-> ?] | [-> ?]]; cbn [andb];
      try (exfalso; lra)
  end.

(** ** The chains read the row of the reach *)

Lemma loc_found (rp_df : gmap Z thresholds) (comid : Z) (th : thresholds)
    (c : rp_column) :
  rp_df !! comid = Some th -> loc rp_df comid c = Return (column c th).
Proof. intros H. unfold loc. now rewrite H. Qed.

Lemma loc_missing (rp_df : gmap Z thresholds) (comid : Z) (c : rp_column) :
  rp_df !! comid = None -> loc rp_df comid c = Raise KeyError.
Proof. intros H. unfold loc. now rewrite H. Qed.

Lemma color_of_found (rp_df : gmap Z thresholds) (comid : Z) (th : thresholds)
    (f_mean : Q) :
  rp_df !! comid = Some th ->
  color_of rp_df comid f_mean = Return (color_chain th f_mean).
Proof.
  intros H. unfold color_of, color_chain.
  rewrite !(loc_found _ _ _ _ H). cbn.
  repeat (destruct (Qgtb _ _); trivial).
Qed.

Lemma ret_per_of_found (rp_df : gmap Z thresholds) (comid : Z) (th : thresholds)
    (f_mean : Q) :
  rp_df !! comid = Some th ->
  ret_per_of rp_df comid f_mean = Return (ret_per_chain th f_mean).
Proof.
  intros H. unfold ret_per_of, ret_per_chain.
  rewrite !(loc_found _ _ _ _ H). cbn.
  repeat (destruct (Qgtb _ _); trivial).
Qed.

Lemma color_of_missing (rp_df : gmap Z thresholds) (comid : Z) (f_mean : Q) :
  rp_df !! comid = None -> color_of rp_df comid f_mean = Raise KeyError.
Proof. intros H. unfold color_of, loc. rewrite H. reflexivity. Qed.

(** Closes the cases left by [split_comparisons]. *)
Ltac close_case :=
  repeat split; intros;
  repeat match goal with H : _ /\ _ |- _ => destruct H end;
  try reflexivity; try discriminate; try congruence; try lra.

(** ** The three chains *)

(** C4. The color of a reach with row [th] is "purple" exactly when the
    mean exceeds [return_50]; otherwise "red" exactly when it exceeds
    [return_10]; otherwise "yellow" exactly when it exceeds [return_2];
    otherwise "blue". The comparisons are strict: a mean equal to
    [return_50] is never "purple", and is "red" as soon as [return_10]
    lies below [return_50]. *)
Theorem color_of_classification (rp_df : gmap Z thresholds) (comid : Z)
    (th : thresholds) (f_mean : Q) :
  rp_df !! comid = Some th ->
  (color_of rp_df comid f_mean = Return "purple" <-> (t50 th < f_mean)%Q) /\
  (color_of rp_df comid f_mean = Return "red" <->
     (f_mean <= t50 th /\ t10 th < f_mean)%Q) /\
  (color_of rp_df comid f_mean = Return "yellow" <->
     (f_mean <= t50 th /\ f_mean <= t10 th /\ t2 th < f_mean)%Q) /\
  (color_of rp_df comid f_mean = Return "blue" <->
     (f_mean <= t50 th /\ f_mean <= t10 th /\ f_mean <= t2 th)%Q) /\
  ((f_mean == t50 th)%Q ->
     color_of rp_df comid f_mean <> Return "purple" /\
     ((t10 th < t50 th)%Q -> color_of rp_df comid f_mean = Return "red")).
Proof.
  intros H. rewrite (color_of_found _ _ _ _ H). unfold color_chain.
  split_comparisons; close_case.
Qed.

(** C5. The return-period label tests the thresholds from the highest
    down with strict comparisons, and the first that the mean exceeds
    wins: "100", else "50", "25", "10", "5", "2", else "0". *)
Theorem ret_per_of_classification (rp_df : gmap Z thresholds) (comid : Z)
    (th : thresholds) (f_mean : Q) :
  rp_df !! comid = Some th ->
  (ret_per_of rp_df comid f_mean = Return "100" <-> (t100 th < f_mean)%Q) /\
  (ret_per_of rp_df comid f_mean = Return "50" <->
     (f_mean <= t100 th /\ t50 th < f_mean)%Q) /\
  (ret_per_of rp_df comid f_mean = Return "25" <->
     (f_mean <= t100 th /\ f_mean <= t50 th /\ t25 th < f_mean)%Q) /\
  (ret_per_of rp_df comid f_mean = Return "10" <->
     (f_mean <= t100 th /\ f_mean <= t50 th /\ f_mean <= t25 th /\
      t10 th < f_mean)%Q) /\
  (ret_per_of rp_df comid f_mean = Return "5" <->
     (f_mean <= t100 th /\ f_mean <= t50 th /\ f_mean <= t25 th /\
      f_mean <= t10 th /\ t5 th < f_mean)%Q) /\
  (ret_per_of rp_df comid f_mean = Return "2" <->
     (f_mean <= t100 th /\ f_mean <= t50 th /\ f_mean <= t25 th /\
      f_mean <= t10 th /\ f_mean <= t5 th /\ t2 th < f_mean)%Q) /\
  (ret_per_of rp_df comid f_mean = Return "0" <->
     (f_mean <= t100 th /\ f_mean <= t50 th /\ f_mean <= t25 th /\
      f_mean <= t10 th /\ f_mean <= t5 th /\ f_mean <= t2 th)%Q).
Proof.
  intros H. rewrite (ret_per_of_found _ _ _ _ H). unfold ret_per_chain.
  split_comparisons; close_case.
Qed.

(** C6. The thickness bands are closed on the left and open on the
    right: "1" below 20, "2" on [20, 250), "3" on [250, 1500), "4" on
    [1500, 10000), "5" on [10000, 30000), "6" from 30000 on; a mean of
    exactly 20 gets "2". *)
Theorem thickness_of_bands (f_mean : Q) :
  (thickness_of f_mean = "1" <-> (f_mean < 20)%Q) /\
  (thickness_of f_mean = "2" <-> (20 <= f_mean /\ f_mean < 250)%Q) /\
  (thickness_of f_mean = "3" <-> (250 <= f_mean /\ f_mean < 1500)%Q) /\
  (thickness_of f_mean = "4" <-> (1500 <= f_mean /\ f_mean < 10000)%Q) /\
  (thickness_of f_mean = "5" <-> (10000 <= f_mean /\ f_mean < 30000)%Q) /\
  (thickness_of f_mean = "6" <-> (30000 <= f_mean)%Q) /\
  ((f_mean == 20)%Q -> thickness_of f_mean = "2").
Proof.
  unfold thickness_of, Qltb.
  split_comparisons; close_case.
Qed.

(** C7. With the thresholds of a reach increasing with the return period,
    a larger mean never gets a lower color, thickness or return-period
    label on the scales blue < yellow < red < purple, "1" < ... < "6" and
    "0" < "2" < "5" < "10" < "25" < "50" < "100". *)
Theorem severity_monotone (rp_df : gmap Z thresholds) (comid : Z)
    (th : thresholds) (m1 m2 : Q) :
  rp_df !! comid = Some th ->
  increasing th ->
  (m1 <= m2)%Q ->
  exists c1 c2 r1 r2 : string,
    color_of rp_df comid m1 = Return c1 /\
    color_of rp_df comid m2 = Return c2 /\
    ret_per_of rp_df comid m1 = Return r1 /\
    ret_per_of rp_df comid m2 = Return r2 /\
    severity_le color_scale c1 c2 /\
    severity_le thickness_scale (thickness_of m1) (thickness_of m2) /\
    severity_le ret_per_scale r1 r2.
Proof.
  intros H (H2 & H5 & H10 & H25 & H50) Hm.
  exists (color_chain th m1), (color_chain th m2),
         (ret_per_chain th m1), (ret_per_chain th m2).
  rewrite !(color_of_found _ _ _ _ H), !(ret_per_of_found _ _ _ _ H).
  repeat split.
  - unfold color_chain. split_comparisons; vm_compute; lia.
  - unfold thickness_of, Qltb. split_comparisons; vm_compute; lia.
  - unfold ret_per_chain. split_comparisons; vm_compute; lia.
Qed.

(** ** The classification loop *)

Lemma classify_found (rp_df : gmap Z thresholds) (comid : Z) (th : thresholds)
    (int_mean : list Q) :
  rp_df !! comid = Some th ->
  forall colors thicknesses ret_pers : list string,
    classify rp_df comid int_mean colors thicknesses ret_pers
    = Return (colors ++ map (color_chain th) int_mean,
              thicknesses ++ map thickness_of int_mean,
              ret_pers ++ map (ret_per_chain th) int_mean).
Proof.
  intros H. induction int_mean as [| f_mean rest IH]; intros cs ts rs; cbn.
  - now rewrite !app_nil_r.
  - rewrite (color_of_found _ _ _ _ H), (ret_per_of_found _ _ _ _ H). cbn.
    rewrite IH, <- !app_assoc. reflexivity.
Qed.

Lemma classify_missing (rp_df : gmap Z thresholds) (comid : Z)
    (f_mean : Q) (rest : list Q) (colors thicknesses ret_pers : list string) :
  rp_df !! comid = None ->
  classify rp_df comid (f_mean :: rest) colors thicknesses ret_pers
  = Raise KeyError.
Proof. intros H. cbn. rewrite (color_of_missing _ _ _ H). reflexivity. Qed.

Lemma color_chain_on_scale (th : thresholds) (f_mean : Q) :
  In (color_chain th f_mean) color_scale.
Proof.
  unfold color_chain, color_scale.
  repeat (destruct (Qgtb _ _)); cbn; tauto.
Qed.

Lemma thickness_of_on_scale (f_mean : Q) :
  In (thickness_of f_mean) thickness_scale.
Proof.
  unfold thickness_of, thickness_scale.
  repeat match goal with
  | |- context [if ?b then _ else _] => destruct b
  end; cbn; tauto.
Qed.

Lemma ret_per_chain_on_scale (th : thresholds) (f_mean : Q) :
  In (ret_per_chain th f_mean) ret_per_scale.
Proof.
  unfold ret_per_chain, ret_per_scale.
  repeat (destruct (Qgtb _ _)); cbn; tauto.
Qed.

(** C10. For a reach that has a row in [rp_df], the classification loop
    does not raise, whatever the means are (negative and zero included):
    every pass appends one label of each scale, so the three lists end
    with the length of [int_mean]. *)
Theorem classify_total (rp_df : gmap Z thresholds) (comid : Z)
    (th : thresholds) (int_mean : list Q) :
  rp_df !! comid = Some th ->
  exists colors thicknesses ret_pers : list string,
    classify rp_df comid int_mean [] [] [] = Return (colors, thicknesses, ret_pers) /\
    length colors = length int_mean /\
    length thicknesses = length int_mean /\
    length ret_pers = length int_mean /\
    Forall (fun c => In c color_scale) colors /\
    Forall (fun t => In t thickness_scale) thicknesses /\
    Forall (fun r => In r ret_per_scale) ret_pers.
Proof.
  intros H.
  exists (map (color_chain th) int_mean), (map thickness_of int_mean),
         (map (ret_per_chain th) int_mean).
  rewrite (classify_found _ _ _ _ H). cbn [app].
  rewrite !length_map. repeat split; trivial.
  - apply List.Forall_forall. intros c Hc. apply in_map_iff in Hc as (m & <- & _).
    apply color_chain_on_scale.
  - apply List.Forall_forall. intros c Hc. apply in_map_iff in Hc as (m & <- & _).
    apply thickness_of_on_scale.
  - apply List.Forall_forall. intros c Hc. apply in_map_iff in Hc as (m & <- & _).
    apply ret_per_chain_on_scale.
Qed.

(** ** The grid *)

Lemma date_range_length (start end_ freq : Z) :
  length (date_range start end_ freq) = Z.to_nat ((end_ - start) / freq + 1).
Proof. unfold date_range. now rewrite length_map, length_seq. Qed.

Lemma date_range_nth (start end_ freq : Z) (k : nat) :
  (k < length (date_range start end_ freq))%nat ->
  nth_error (date_range start end_ freq) k = Some (start + freq * Z.of_nat k).
Proof.
  rewrite date_range_length. intros Hk. unfold date_range.
  rewrite nth_error_map, nth_error_seq.
  destruct (Nat.ltb_spec k (Z.to_nat ((end_ - start) / freq + 1))); [reflexivity | lia].
Qed.

(** The number of grid points counts the multiples of [freq] that fit. *)
Lemma fits_iff (start end_ freq : Z) (k : nat) :
  0 < freq ->
  (k < Z.to_nat ((end_ - start) / freq + 1))%nat <->
  start + freq * Z.of_nat k <= end_.
Proof.
  intros Hf.
  pose proof (Z.div_mod (end_ - start) freq ltac:(lia)) as Hd.
  pose proof (Z.mod_pos_bound (end_ - start) freq Hf) as Hm.
  set (q := (end_ - start) / freq) in *.
  set (r := (end_ - start) mod freq) in *.
  split; intros H.
  - assert (Z.of_nat k <= q) as Hq by lia.
    assert (freq * Z.of_nat k <= freq * q) by (apply Z.mul_le_mono_nonneg_l; lia).
    lia.
  - assert (Z.of_nat k < q + 1) as Hq; [| lia].
    apply (Z.mul_lt_mono_pos_l freq); lia.
Qed.

Lemma date_range_In (start end_ freq t : Z) :
  0 < freq ->
  In t (date_range start end_ freq) <->
  exists k : Z, 0 <= k /\ t = start + freq * k /\ t <= end_.
Proof.
  intros Hf. unfold date_range. rewrite in_map_iff. split.
  - intros (k & <- & Hk). apply in_seq in Hk. exists (Z.of_nat k).
    repeat split; [lia |]. apply fits_iff; [assumption | lia].
  - intros (k & Hk & -> & Hle). exists (Z.to_nat k).
    rewrite Z2Nat.id by assumption. split; [reflexivity |].
    apply in_seq. split; [lia |]. cbn. apply fits_iff; [assumption |].
    now rewrite Z2Nat.id.
Qed.

(** C8. With [start] the first and [end_] the last of the dates, the grid
    is [start], [start + 3h], [start + 6h], ... in this order, and holds
    exactly the points of this progression that do not pass [end_]; so
    [end_] is on the grid only when it lies a whole number of 3-hour
    steps after [start]. For the dates [t0], [t0 + 1h], [t0 + 5h] the
    grid is [t0], [t0 + 3h]. *)
Theorem interp_x_grid (dates : list Z) (start end_ : Z) :
  item_first dates = Return start ->
  item_last dates = Return end_ ->
  exists grid : list Z,
    interp_x dates = Return grid /\
    (forall k : nat, (k < length grid)%nat ->
       nth_error grid k = Some (start + 180 * Z.of_nat k)) /\
    (forall t : Z, In t grid <->
       exists k : Z, 0 <= k /\ t = start + 180 * k /\ t <= end_) /\
    (In end_ grid <-> start <= end_ /\ (180 | end_ - start)) /\
    (forall t0 : Z,
       interp_x [t0; t0 + 60; t0 + 300] = Return [t0; t0 + 180]).
Proof.
  intros Hs He. exists (date_range start end_ freq_3H).
  split; [| split; [| split; [| split]]].
  - unfold interp_x. rewrite Hs, He. reflexivity.
  - intros k Hk. now apply date_range_nth.
  - intros t. apply date_range_In. reflexivity.
  - rewrite date_range_In by reflexivity. unfold freq_3H. split.
    + intros (k & Hk & Heq & _). split; [lia |]. exists k. lia.
    + intros (Hle & k & Hk). exists k. lia.
  - intros t0. unfold interp_x. cbn. unfold date_range, freq_3H.
    replace ((t0 + 300 - t0) / 180 + 1) with 2.
    + change (Z.to_nat 2) with 2%nat. cbn [seq map].
      change (Z.of_nat 0) with 0. change (Z.of_nat 1) with 1.
      now rewrite Z.mul_0_r, Z.add_0_r, Z.mul_1_r.
    + replace (t0 + 300 - t0) with 300 by lia. reflexivity.
Qed.

(** ** Frames *)

Lemma frame_length (n : nat) :
  forall (c0 : list Z) (c1 : list string) (c2 c3 : list Q) (c4 c5 c6 : list string),
    length c0 = n -> length c1 = n -> length c2 = n -> length c3 = n ->
    length c4 = n -> length c5 = n -> length c6 = n ->
    length (frame c0 c1 c2 c3 c4 c5 c6) = n.
Proof.
  induction n as [| n IH]; intros c0 c1 c2 c3 c4 c5 c6;
    destruct c0, c1, c2, c3, c4, c5, c6; cbn; intros; try discriminate; trivial.
  f_equal. apply IH; congruence.
Qed.

Lemma frame_nth (j : nat) :
  forall (c0 : list Z) (c1 : list string) (c2 c3 : list Q) (c4 c5 c6 : list string)
         (a0 : Z) (a1 : string) (a2 a3 : Q) (a4 a5 a6 : string),
    nth_error c0 j = Some a0 -> nth_error c1 j = Some a1 ->
    nth_error c2 j = Some a2 -> nth_error c3 j = Some a3 ->
    nth_error c4 j = Some a4 -> nth_error c5 j = Some a5 ->
    nth_error c6 j = Some a6 ->
    nth_error (frame c0 c1 c2 c3 c4 c5 c6) j = Some (Row a0 a1 a2 a3 a4 a5 a6).
Proof.
  induction j as [| j IH]; intros c0 c1 c2 c3 c4 c5 c6;
    destruct c0, c1, c2, c3, c4, c5, c6; cbn; intros; try discriminate.
  - congruence.
  - now apply IH.
Qed.

Lemma frame_comid (n : nat) :
  forall (c0 : list Z) (c1 : list string) (c2 c3 : list Q) (c4 c5 c6 : list string),
    length c0 = n -> length c1 = n -> length c2 = n -> length c3 = n ->
    length c4 = n -> length c5 = n -> length c6 = n ->
    map row_comid (frame c0 c1 c2 c3 c4 c5 c6) = c0.
Proof.
  induction n as [| n IH]; intros c0 c1 c2 c3 c4 c5 c6;
    destruct c0, c1, c2, c3, c4, c5, c6; cbn; intros; try discriminate; trivial.
  f_equal. apply IH; congruence.
Qed.

Lemma range_length (n : nat) : length (range n) = n.
Proof. unfold range. now rewrite length_map, length_seq. Qed.

Lemma range_nth (n j : nat) :
  (j < n)%nat -> nth_error (range n) j = Some (Z.of_nat j).
Proof.
  intros H. unfold range. rewrite nth_error_map, nth_error_seq.
  destruct (Nat.ltb_spec j n); [reflexivity | lia].
Qed.

(** ** The loop header *)

Lemma enumerate_from_length (it : list pyval) :
  forall index : nat, length (enumerate_from index it) = length it.
Proof. induction it as [| v rest IH]; intros index; cbn; [| rewrite IH]; trivial. Qed.

Lemma enumerate_from_pairs (it : list pyval) :
  forall (index : nat) (item : list pyval),
    In item (enumerate_from index it) -> length item = 2%nat.
Proof.
  induction it as [| v rest IH]; intros index item; cbn.
  - tauto.
  - intros [<- | H]; [reflexivity | eauto].
Qed.

(** A pair does not unpack into five targets. *)
Lemma unpack_pair (item : list pyval) :
  length item = 2%nat -> unpack 5 item = Raise ValueError.
Proof. intros H. unfold unpack. now rewrite H. Qed.

(** ** The loop *)

Lemma for_each_raise (step : list pyval -> result (list row))
    (items : list (list pyval)) (item : list pyval) (e : exn) :
  In item items -> step item = Raise e ->
  forall summary_table_df : list row,
    exists e' : exn, for_each step items summary_table_df = Raise e'.
Proof.
  intros Hin He. induction items as [| first rest IH]; intros acc.
  - destruct Hin.
  - cbn. destruct (step first) as [site | e1] eqn:E; cbn.
    + destruct Hin as [-> | Hin]; [congruence | now apply IH].
    + now exists e1.
Qed.

Lemma for_each_return (step : list pyval -> result (list row))
    (items : list (list pyval)) :
  forall summary_table_df table : list row,
    for_each step items summary_table_df = Return table ->
    exists blocks : list (list row),
      Forall2 (fun item block => step item = Return block) items blocks /\
      table = summary_table_df ++ concat blocks.
Proof.
  induction items as [| first rest IH]; intros acc table; cbn.
  - intros [= <-]. exists []. split; [constructor | now rewrite app_nil_r].
  - destruct (step first) as [site | e1] eqn:E; cbn; [| discriminate].
    intros H. apply IH in H as (blocks & HF & ->).
    exists (site :: blocks). split; [now constructor |].
    cbn. now rewrite app_assoc.
Qed.

Section AssemblyProperties.

Variable pchip_value : list Z -> list Q -> Z -> Q.
Variable round2 : Q -> Q.
Variable strftime : Z -> string.
Variable utc_string : Z -> result string.
Variable timestamp : string -> Z.
Variable to_datetime : string -> Z.

(** ** The interpolator *)

Lemma pchip_inv (x : list Z) (y : list Q) (p : list Z -> list Q) :
  pchip pchip_value x y = Return p ->
  p = map (pchip_value x y) /\
  (2 <= length x)%nat /\ length y = length x /\ strictly_increasing x = true.
Proof.
  unfold pchip.
  destruct (Nat.ltb_spec (length x) 2); [discriminate |].
  destruct (Nat.eqb_spec (length y) (length x)); cbn [negb]; [| discriminate].
  destruct (strictly_increasing x); cbn [negb]; [| discriminate].
  intros [= <-]. auto.
Qed.

Lemma pchip_accepts (x : list Z) (y : list Q) :
  (2 <= length x)%nat -> length y = length x -> strictly_increasing x = true ->
  pchip pchip_value x y = Return (map (pchip_value x y)).
Proof.
  intros H2 Hy Hs. unfold pchip. rewrite Hs, Hy, Nat.eqb_refl.
  destruct (Nat.ltb_spec (length x) 2); [lia | reflexivity].
Qed.

Lemma pchip_too_short (x : list Z) (y : list Q) :
  (length x < 2)%nat -> pchip pchip_value x y = Raise ValueError.
Proof.
  intros H. unfold pchip.
  destruct (Nat.ltb_spec (length x) 2); [reflexivity | lia].
Qed.

Lemma pchip_length_mismatch (x : list Z) (y : list Q) :
  length y <> length x -> pchip pchip_value x y = Raise ValueError.
Proof.
  intros H. unfold pchip.
  destruct (length x <? 2)%nat; [reflexivity |].
  destruct (Nat.eqb_spec (length y) (length x)); [contradiction | reflexivity].
Qed.

Lemma pchip_not_increasing (x : list Z) (y : list Q) :
  strictly_increasing x = false -> pchip pchip_value x y = Raise ValueError.
Proof.
  intros H. unfold pchip. rewrite H.
  destruct (length x <? 2)%nat; [reflexivity |].
  destruct (negb (length y =? length x)%nat); reflexivity.
Qed.

(** ** The block of a reach *)


(** A reach without a row in [rp_df] ends the body with a [KeyError]
    at the first grid timestamp. *)
Lemma site_summary_missing_thresholds (rp_df : gmap Z thresholds)
    (dt_dates grid : list Z) (new_dates : list string) (comid : Z)
    (maxes means : list Q) (pmax pmean : list Z -> list Q) :
  pchip pchip_value dt_dates maxes = Return pmax ->
  pchip pchip_value dt_dates means = Return pmean ->
  grid <> [] ->
  rp_df !! comid = None ->
  site_summary pchip_value round2 rp_df dt_dates grid new_dates comid maxes means
  = Raise KeyError.
Proof.
  intros Emax Emean Hg Hrp. unfold site_summary. rewrite Emax, Emean. cbn.
  apply pchip_inv in Emean as (-> & _).
  destruct grid as [| t rest]; [contradiction |]. cbn [map].
  rewrite classify_missing by assumption. reflexivity.
Qed.

(** What the body returns is a complete block, whose first column
    counts the rows. *)
Lemma site_summary_block (rp_df : gmap Z thresholds)
    (dt_dates grid : list Z) (comid : Z) (maxes means : list Q)
    (block : list row) :
  site_summary pchip_value round2 rp_df dt_dates grid (map strftime grid)
               comid maxes means = Return block ->
  complete_block pchip_value round2 strftime rp_df dt_dates grid
                 comid maxes means block /\
  map row_comid block = range (length grid).
Proof.
  unfold site_summary.
  destruct (pchip pchip_value dt_dates maxes) as [pmax | e] eqn:Emax;
    [| discriminate].
  destruct (pchip pchip_value dt_dates means) as [pmean | e] eqn:Emean;
    [| discriminate].
  apply pchip_inv in Emax as (-> & _). apply pchip_inv in Emean as (-> & _).
  cbn. rewrite length_map.
  destruct (rp_df !! comid) as [th |] eqn:Hrp.
  - rewrite (classify_found _ _ _ _ Hrp). cbn. intros [= <-].
    split; [split |].
    + apply frame_length; rewrite ?length_map; auto using range_length.
    + intros j t Hj.
      eexists. split.
      * apply frame_nth.
        -- apply range_nth. apply nth_error_Some. congruence.
        -- rewrite nth_error_map, Hj. reflexivity.
        -- rewrite !nth_error_map, Hj. reflexivity.
        -- rewrite !nth_error_map, Hj. reflexivity.
        -- rewrite !nth_error_map, Hj. reflexivity.
        -- rewrite !nth_error_map, Hj. reflexivity.
        -- rewrite !nth_error_map, Hj. reflexivity.
      * cbn. rewrite (color_of_found _ _ _ _ Hrp), (ret_per_of_found _ _ _ _ Hrp).
        repeat split.
    + apply (frame_comid (length grid)); rewrite ?length_map; auto using range_length.
  - destruct grid as [| t rest].
    + cbn. intros [= <-]. split; [split |]; trivial.
      intros [| j] t; discriminate.
    + cbn [map]. rewrite classify_missing by assumption. discriminate.
Qed.

(** ** One pass of the loop *)

Lemma loop_step_block (rp_df : gmap Z thresholds) (dt_dates grid : list Z)
    (new_dates : list string) (item : list pyval) (block : list row) :
  loop_step pchip_value round2 rp_df dt_dates grid new_dates item = Return block ->
  exists (index : pyval) (comid : Z) (date : pyval) (maxes means : list Q),
    item = [index; PyInt comid; date; PyFloats maxes; PyFloats means] /\
    site_summary pchip_value round2 rp_df dt_dates grid new_dates comid maxes means
    = Return block.
Proof.
  unfold loop_step, unpack.
  destruct (Nat.eqb_spec (length item) 5) as [Hlen | _]; cbn; [| discriminate].
  destruct item as [| index [| [comid | | |] [| date [| [| | maxes |] [| [| | means |] [|]]]]]];
    try discriminate.
  intros H. now exists index, comid, date, maxes, means.
Qed.

Lemma loop_step_enumerated (rp_df : gmap Z thresholds) (dt_dates grid : list Z)
    (new_dates : list string) (it : list pyval) (item : list pyval) :
  In item (enumerate it) ->
  loop_step pchip_value round2 rp_df dt_dates grid new_dates item = Raise ValueError.
Proof.
  intros H. unfold loop_step.
  rewrite unpack_pair by (eapply enumerate_from_pairs; exact H). reflexivity.
Qed.

(** ** The run *)

Lemma extract_summary_table_handle (f : forecast) :
  extract_summary_table pchip_value round2 strftime utc_string timestamp to_datetime f
  = handle (summary_table pchip_value round2 strftime utc_string timestamp
              to_datetime f).
Proof. reflexivity. Qed.

Lemma extract_summary_table_written (f : forecast) (table : list row) :
  written (extract_summary_table pchip_value round2 strftime utc_string timestamp
             to_datetime f) = Some table <->
  summary_table pchip_value round2 strftime utc_string timestamp to_datetime f
  = Return table.
Proof.
  unfold extract_summary_table.
  destruct (summary_table pchip_value round2 strftime utc_string timestamp
              to_datetime f); cbn; split; congruence.
Qed.

Lemma date_range_five_hours (t0 : Z) :
  date_range t0 (t0 + 300) freq_3H = [t0; t0 + 180].
Proof.
  unfold date_range, freq_3H.
  replace (t0 + 300 - t0) with 300 by lia.
  change (Z.to_nat (300 / 180 + 1)) with 2%nat. cbn [seq map].
  change (Z.of_nat 0) with 0. change (Z.of_nat 1) with 1.
  now rewrite Z.mul_0_r, Z.add_0_r, Z.mul_1_r.
Qed.

(** A run that enters the loop ends in the handler. *)
Lemma run_with_loop_items_fails (f : forecast) (dates : list string) (grid : list Z) :
  format_dates utc_string (rawdates f) [] = Return dates ->
  interp_x (map timestamp dates) = Return grid ->
  loop_items strftime f grid <> [] ->
  extract_summary_table pchip_value round2 strftime utc_string timestamp to_datetime f
  = Outcome None None [ValueError].
Proof.
  intros Hd Hg Hne. unfold extract_summary_table, summary_table.
  rewrite Hd. cbn. rewrite Hg. cbn. fold (loop_items strftime f grid).
  destruct (loop_items strftime f grid) as [| item rest] eqn:E; [contradiction |].
  cbn. rewrite (loop_step_enumerated _ _ _ _
    (zip4 (comids f) (map strftime grid) (maxlist f) (meanlist f)));
    [reflexivity |].
  fold (loop_items strftime f grid). rewrite E. now left.
Qed.

(** The table of a run that writes one has no row. *)
Lemma written_table_empty (f : forecast) (table : list row) :
  written (extract_summary_table pchip_value round2 strftime utc_string timestamp
             to_datetime f) = Some table ->
  table = [].
Proof.
  intros H.
  destruct (format_dates utc_string (rawdates f) []) as [dates | e] eqn:Hd.
  - destruct (interp_x (map timestamp dates)) as [grid | e] eqn:Hg.
    + destruct (loop_items strftime f grid) as [| item rest] eqn:E.
      * apply extract_summary_table_written in H.
        unfold summary_table in H. rewrite Hd in H. cbn in H.
        rewrite Hg in H. cbn in H.
        fold (loop_items strftime f grid) in H. rewrite E in H.
        cbn in H. congruence.
      * rewrite (run_with_loop_items_fails f dates grid Hd Hg) in H
          by (rewrite E; discriminate).
        discriminate.
    + apply extract_summary_table_written in H.
      unfold summary_table in H. rewrite Hd in H. cbn in H.
      rewrite Hg in H. discriminate.
  - apply extract_summary_table_written in H.
    unfold summary_table in H. rewrite Hd in H. discriminate.
Qed.

(** C1 (amended). The loop has no handler of its own. When the body
    raises for one reach, after passes that returned their blocks, the
    loop stops there and the exception reaches the handler of the run,
    which logs it: the run returns nothing and writes no table, so the
    blocks already built are dropped and the reaches that follow are not
    processed. *)
Theorem reach_failure_aborts_run (rp_df : gmap Z thresholds)
    (dt_dates grid : list Z) (new_dates : list string)
    (before after : list (list pyval)) (blocks : list (list row))
    (index date : pyval) (comid : Z) (maxes means : list Q) (e : exn) :
  Forall2
    (fun item block =>
       loop_step pchip_value round2 rp_df dt_dates grid new_dates item = Return block)
    before blocks ->
  site_summary pchip_value round2 rp_df dt_dates grid new_dates comid maxes means
  = Raise e ->
  handle
    (for_each (loop_step pchip_value round2 rp_df dt_dates grid new_dates)
       (before ++ [index; PyInt comid; date; PyFloats maxes; PyFloats means] :: after)
       [])
  = Outcome None None [e].
Proof.
  intros HF He.
  assert (forall acc : list row,
            for_each (loop_step pchip_value round2 rp_df dt_dates grid new_dates)
              (before ++ [index; PyInt comid; date; PyFloats maxes; PyFloats means]
                      :: after) acc
            = Raise e) as H.
  { induction HF as [| first block before blocks Hstep _ IH]; intros acc.
    - cbn [app for_each]. unfold loop_step at 1. cbn. now rewrite He.
    - cbn [app for_each]. rewrite Hstep. cbn. apply IH. }
  now rewrite H.
Qed.

(** C9. Rows are emitted all or nothing. The body of the loop either
    raises or returns a block that is complete for its reach: one row
    per grid timestamp, labelled by the three chains. And a run either
    writes no table, or writes the concatenation, in loop order, of one
    such complete block per item of the loop. *)
Theorem all_or_nothing (f : forecast) :
  (forall (dt_dates grid : list Z) (comid : Z) (maxes means : list Q),
     raises (site_summary pchip_value round2 (rp_df f) dt_dates grid
               (map strftime grid) comid maxes means) \/
     exists block : list row,
       site_summary pchip_value round2 (rp_df f) dt_dates grid
         (map strftime grid) comid maxes means = Return block /\
       complete_block pchip_value round2 strftime (rp_df f) dt_dates grid
                      comid maxes means block) /\
  (written (extract_summary_table pchip_value round2 strftime utc_string timestamp
              to_datetime f) = None \/
  exists (dates : list string) (grid : list Z) (blocks : list (list row)),
    format_dates utc_string (rawdates f) [] = Return dates /\
    interp_x (map timestamp dates) = Return grid /\
    written (extract_summary_table pchip_value round2 strftime utc_string timestamp
               to_datetime f)
    = Some (concat blocks) /\
    Forall2
      (fun item block =>
         exists (index : pyval) (comid : Z) (date : pyval) (maxes means : list Q),
           item = [index; PyInt comid; date; PyFloats maxes; PyFloats means] /\
           complete_block pchip_value round2 strftime (rp_df f)
                          (map to_datetime dates) grid
                          comid maxes means block)
      (loop_items strftime f grid) blocks).
Proof.
  split.
  { intros dt_dates grid comid maxes means.
    destruct (site_summary pchip_value round2 (rp_df f) dt_dates grid
                (map strftime grid) comid maxes means) as [block | e] eqn:E.
    - right. exists block. split; [reflexivity |].
      now apply site_summary_block in E as [E _].
    - left. now exists e. }
  unfold extract_summary_table.
  destruct (summary_table pchip_value round2 strftime utc_string timestamp
              to_datetime f) as [table | e] eqn:E;
    [right | now left].
  unfold summary_table in E.
  destruct (format_dates utc_string (rawdates f) []) as [dates | e] eqn:Hd;
    [| discriminate].
  cbn in E.
  destruct (interp_x (map timestamp dates)) as [grid | e] eqn:Hg;
    [| discriminate].
  cbn in E. fold (loop_items strftime f grid) in E.
  apply for_each_return in E as (blocks & HF & ->).
  exists dates, grid, blocks. repeat split; trivial.
  eapply Forall2_impl; [exact HF |].
  intros item block H. cbn beta in H.
  apply loop_step_block in H as (index & comid & date & maxes & means & -> & H).
  exists index, comid, date, maxes, means. split; [reflexivity |].
  now apply site_summary_block in H as [H _].
Qed.

(** C3 (evaluation). The run of [one_reach], its three time stamps read
    as [t0], a minute between, and [t0 + 5h]: the grid has the two points
    [t0] and [t0 + 3h] and the block of reach 101 has its two rows, yet
    the run ends in the handler with a [ValueError] and writes
    nothing. *)
Theorem one_reach_run_writes_nothing (s0 s1 s2 : string) (t0 : Z) :
  utc_string 0 = Return s0 ->
  utc_string 3600 = Return s1 ->
  utc_string 18000 = Return s2 ->
  timestamp s0 = t0 ->
  timestamp s2 = t0 + 300 ->
  to_datetime s0 < to_datetime s1 < to_datetime s2 ->
  format_dates utc_string (rawdates one_reach) [] = Return [s0; s1; s2] /\
  interp_x (map timestamp [s0; s1; s2]) = Return [t0; t0 + 180] /\
  (exists r0 r1 : row,
     site_summary pchip_value round2 (rp_df one_reach)
                  (map to_datetime [s0; s1; s2]) [t0; t0 + 180]
                  (map strftime [t0; t0 + 180]) 101 [5; 60; 5000]%Q [5; 50; 5000]%Q
     = Return [r0; r1]) /\
  extract_summary_table pchip_value round2 strftime utc_string timestamp to_datetime
    one_reach
  = Outcome None None [ValueError].
Proof.
  intros H0 H1 H2 Ht0 Ht2 [Hlt1 Hlt2].
  assert (format_dates utc_string (rawdates one_reach) [] = Return [s0; s1; s2]) as Hd.
  { cbn. rewrite H0. cbn. rewrite H1. cbn. now rewrite H2. }
  assert (interp_x (map timestamp [s0; s1; s2]) = Return [t0; t0 + 180]) as Hg.
  { unfold interp_x. cbn. rewrite Ht0, Ht2. now rewrite date_range_five_hours. }
  split; [exact Hd |]. split; [exact Hg |]. split.
  - unfold site_summary.
    assert (strictly_increasing (map to_datetime [s0; s1; s2]) = true) as Hs.
    { cbn. apply Z.ltb_lt in Hlt1, Hlt2. now rewrite Hlt1, Hlt2. }
    rewrite !pchip_accepts by (trivial; cbn; lia).
    cbn [mbind result_bind map].
    rewrite (classify_found _ _ rp_101) by reflexivity.
    cbn. eauto.
  - apply (run_with_loop_items_fails one_reach [s0; s1; s2] [t0; t0 + 180] Hd Hg).
    discriminate.
Qed.

(** C2 (evaluation). The block built for reach 101 on the grid
    [t0], [t0 + 3h]: the first field of its rows is 0 and 1, the number
    of the row, not 101. *)
Theorem site_summary_first_field_101 :
  exists r0 r1 : row,
    site_summary pchip_value round2 (rp_df one_reach) [0; 60; 300] [0; 180]
                 (map strftime [0; 180]) 101 [5; 60; 5000]%Q [5; 50; 5000]%Q
    = Return [r0; r1] /\
    row_comid r0 = 0 /\ row_comid r1 = 1 /\
    row_timestamp r0 = strftime 0 /\ row_timestamp r1 = strftime 180.
Proof.
  unfold site_summary.
  change (pchip pchip_value [0; 60; 300] [5; 60; 5000]%Q)
    with (Return (A := list Z -> list Q)
            (map (pchip_value [0; 60; 300] [5; 60; 5000]%Q))).
  change (pchip pchip_value [0; 60; 300] [5; 50; 5000]%Q)
    with (Return (A := list Z -> list Q)
            (map (pchip_value [0; 60; 300] [5; 50; 5000]%Q))).
  cbn [mbind result_bind map].
  rewrite (classify_found _ _ rp_101) by reflexivity.
  cbn. do 2 eexists. split; [reflexivity |]. cbn. auto.
Qed.

End AssemblyProperties.

(** ** Sample evaluations *)

Lemma rp_101_increasing : increasing rp_101.
Proof. unfold increasing, rp_101. cbn. repeat split; lra. Qed.

Lemma color_of_classification_witness :
  rp_df one_reach !! 101 = Some rp_101 /\
  (color_of (rp_df one_reach) 101 1000 = Return "purple" <-> (t50 rp_101 < 1000)%Q) /\
  (color_of (rp_df one_reach) 101 1000 = Return "red" <->
     (1000 <= t50 rp_101 /\ t10 rp_101 < 1000)%Q) /\
  (color_of (rp_df one_reach) 101 1000 = Return "yellow" <->
     (1000 <= t50 rp_101 /\ 1000 <= t10 rp_101 /\ t2 rp_101 < 1000)%Q) /\
  (color_of (rp_df one_reach) 101 1000 = Return "blue" <->
     (1000 <= t50 rp_101 /\ 1000 <= t10 rp_101 /\ 1000 <= t2 rp_101)%Q) /\
  ((1000 == t50 rp_101)%Q ->
     color_of (rp_df one_reach) 101 1000 <> Return "purple" /\
     ((t10 rp_101 < t50 rp_101)%Q -> color_of (rp_df one_reach) 101 1000 = Return "red")).
Proof.
  split; [reflexivity |].
  apply (color_of_classification (rp_df one_reach) 101 rp_101 1000). reflexivity.
Defined.

Lemma ret_per_of_classification_witness :
  rp_df one_reach !! 101 = Some rp_101 /\
  (ret_per_of (rp_df one_reach) 101 5000 = Return "100" <-> (t100 rp_101 < 5000)%Q) /\
  (ret_per_of (rp_df one_reach) 101 5000 = Return "50" <->
     (5000 <= t100 rp_101 /\ t50 rp_101 < 5000)%Q) /\
  (ret_per_of (rp_df one_reach) 101 5000 = Return "25" <->
     (5000 <= t100 rp_101 /\ 5000 <= t50 rp_101 /\ t25 rp_101 < 5000)%Q) /\
  (ret_per_of (rp_df one_reach) 101 5000 = Return "10" <->
     (5000 <= t100 rp_101 /\ 5000 <= t50 rp_101 /\ 5000 <= t25 rp_101 /\
      t10 rp_101 < 5000)%Q) /\
  (ret_per_of (rp_df one_reach) 101 5000 = Return "5" <->
     (5000 <= t100 rp_101 /\ 5000 <= t50 rp_101 /\ 5000 <= t25 rp_101 /\
      5000 <= t10 rp_101 /\ t5 rp_101 < 5000)%Q) /\
  (ret_per_of (rp_df one_reach) 101 5000 = Return "2" <->
     (5000 <= t100 rp_101 /\ 5000 <= t50 rp_101 /\ 5000 <= t25 rp_101 /\
      5000 <= t10 rp_101 /\ 5000 <= t5 rp_101 /\ t2 rp_101 < 5000)%Q) /\
  (ret_per_of (rp_df one_reach) 101 5000 = Return "0" <->
     (5000 <= t100 rp_101 /\ 5000 <= t50 rp_101 /\ 5000 <= t25 rp_101 /\
      5000 <= t10 rp_101 /\ 5000 <= t5 rp_101 /\ 5000 <= t2 rp_101)%Q).
Proof.
  split; [reflexivity |].
  apply (ret_per_of_classification (rp_df one_reach) 101 rp_101 5000). reflexivity.
Defined.

Lemma severity_monotone_witness :
  rp_df one_reach !! 101 = Some rp_101 /\
  increasing rp_101 /\
  (50 <= 5000)%Q /\
  exists c1 c2 r1 r2 : string,
    color_of (rp_df one_reach) 101 50 = Return c1 /\
    color_of (rp_df one_reach) 101 5000 = Return c2 /\
    ret_per_of (rp_df one_reach) 101 50 = Return r1 /\
    ret_per_of (rp_df one_reach) 101 5000 = Return r2 /\
    severity_le color_scale c1 c2 /\
    severity_le thickness_scale (thickness_of 50) (thickness_of 5000) /\
    severity_le ret_per_scale r1 r2.
Proof.
  split; [reflexivity |].
  split; [exact rp_101_increasing |].
  split; [discriminate |].
  apply (severity_monotone (rp_df one_reach) 101 rp_101 50 5000).
  - reflexivity.
  - exact rp_101_increasing.
  - discriminate.
Defined.

Lemma classify_total_witness :
  rp_df one_reach !! 101 = Some rp_101 /\
  exists colors thicknesses ret_pers : list string,
    classify (rp_df one_reach) 101 [-3; 0; 25; 40000]%Q [] [] []
    = Return (colors, thicknesses, ret_pers) /\
    length colors = length [-3; 0; 25; 40000]%Q /\
    length thicknesses = length [-3; 0; 25; 40000]%Q /\
    length ret_pers = length [-3; 0; 25; 40000]%Q /\
    Forall (fun c => In c color_scale) colors /\
    Forall (fun t => In t thickness_scale) thicknesses /\
    Forall (fun r => In r ret_per_scale) ret_pers.
Proof.
  split; [reflexivity |].
  apply (classify_total (rp_df one_reach) 101 rp_101 [-3; 0; 25; 40000]%Q).
  reflexivity.
Defined.

Lemma interp_x_grid_witness :
  item_first [0; 60; 300] = Return 0 /\
  item_last [0; 60; 300] = Return 300 /\
  exists grid : list Z,
    interp_x [0; 60; 300] = Return grid /\
    (forall k : nat, (k < length grid)%nat ->
       nth_error grid k = Some (0 + 180 * Z.of_nat k)) /\
    (forall t : Z, In t grid <->
       exists k : Z, 0 <= k /\ t = 0 + 180 * k /\ t <= 300) /\
    (In 300 grid <-> 0 <= 300 /\ (180 | 300 - 0)) /\
    (forall t0 : Z,
       interp_x [t0; t0 + 60; t0 + 300] = Return [t0; t0 + 180]).
Proof.
  split; [reflexivity |]. split; [reflexivity |].
  apply (interp_x_grid [0; 60; 300] 0 300); reflexivity.
Defined.

Lemma one_reach_run_writes_nothing_witness :
  sample_utc 0 = Return "01/01/70 00:00" /\
  sample_utc 3600 = Return "01/01/70 01:00" /\
  sample_utc 18000 = Return "01/01/70 05:00" /\
  sample_minute "01/01/70 00:00" = 0 /\
  sample_minute "01/01/70 05:00" = 0 + 300 /\
  sample_minute "01/01/70 00:00" < sample_minute "01/01/70 01:00"
    < sample_minute "01/01/70 05:00" /\
  format_dates sample_utc (rawdates one_reach) []
  = Return ["01/01/70 00:00"; "01/01/70 01:00"; "01/01/70 05:00"] /\
  interp_x (map sample_minute ["01/01/70 00:00"; "01/01/70 01:00"; "01/01/70 05:00"])
  = Return [0; 0 + 180] /\
  (exists r0 r1 : row,
     site_summary step_value no_round (rp_df one_reach)
                  (map sample_minute
                     ["01/01/70 00:00"; "01/01/70 01:00"; "01/01/70 05:00"])
                  [0; 0 + 180]
                  (map minute_label [0; 0 + 180]) 101 [5; 60; 5000]%Q [5; 50; 5000]%Q
     = Return [r0; r1]) /\
  extract_summary_table step_value no_round minute_label sample_utc sample_minute
    sample_minute one_reach
  = Outcome None None [ValueError].
Proof.
  split; [reflexivity |]. split; [reflexivity |]. split; [reflexivity |].
  split; [reflexivity |]. split; [reflexivity |].
  split; [split; reflexivity |].
  apply (one_reach_run_writes_nothing step_value no_round minute_label
           sample_utc sample_minute sample_minute
           "01/01/70 00:00" "01/01/70 01:00" "01/01/70 05:00" 0);
    try reflexivity.
  split; reflexivity.
Defined.

Lemma reach_failure_aborts_run_witness :
  Forall2
    (fun item block =>
       loop_step step_value no_round (rp_df two_reaches) [0; 60; 300] [0; 180]
                 (map minute_label [0; 180]) item = Return block)
    [five_item] [five_item_block] /\
  site_summary step_value no_round (rp_df two_reaches) [0; 60; 300] [0; 180]
               (map minute_label [0; 180]) 102 [7; 70; 7000]%Q [7; 60; 6000]%Q
  = Raise KeyError /\
  handle
    (for_each
       (loop_step step_value no_round (rp_df two_reaches) [0; 60; 300] [0; 180]
                  (map minute_label [0; 180]))
       ([five_item]
          ++ [PyInt 1; PyInt 102; PyStr "t0+3h";
              PyFloats [7; 70; 7000]%Q; PyFloats [7; 60; 6000]%Q]
          :: [five_item])
       [])
  = Outcome None None [KeyError].
Proof.
  assert (Forall2
            (fun item block =>
               loop_step step_value no_round (rp_df two_reaches) [0; 60; 300] [0; 180]
                         (map minute_label [0; 180]) item = Return block)
            [five_item] [five_item_block]) as HF.
  { constructor; [reflexivity | constructor]. }
  split; [exact HF |]. split; [reflexivity |].
  apply (reach_failure_aborts_run step_value no_round (rp_df two_reaches)
           [0; 60; 300] [0; 180] (map minute_label [0; 180])
           [five_item] [five_item] [five_item_block]
           (PyInt 1) (PyStr "t0+3h") 102 [7; 70; 7000]%Q [7; 60; 6000]%Q KeyError HF).
  reflexivity.
Defined.

(** [two_reaches] is the forecast that the statistics files of
    [two_reaches_listing] load. *)
Lemma two_reaches_from_files :
  exists first : string * dataset,
    item_first (nclist "/out/w/d" two_reaches_listing) = Return first /\
    rivid (snd first) = comids two_reaches /\
    time (snd first) = rawdates two_reaches /\
    load_files no_round (sorted (nclist "/out/w/d" two_reaches_listing))
               (rivid (snd first)) [] []
    = Return (maxlist two_reaches, meanlist two_reaches).
Proof. eexists. repeat split; reflexivity. Qed.

(** C1 (as stated, refuted). In the run of [two_reaches] the block of
    reach 101 can be built, reach 102 has no row of thresholds and its
    body raises a [KeyError], and nothing is written: the rows of reach
    101 are not in the output. *)
Lemma per_reach_containment_fails : ~ per_reach_containment.
Proof.
  intros H.
  edestruct (H step_value no_round minute_label sample_utc sample_minute sample_minute
               two_reaches
               ["01/01/70 00:00"; "01/01/70 01:00"; "01/01/70 05:00"] [0; 180]
               1%nat 102 [7; 70; 7000]%Q [7; 60; 6000]%Q
               eq_refl eq_refl eq_refl eq_refl eq_refl
               (ex_intro _ KeyError eq_refl)
               0%nat 101 [5; 60; 5000]%Q [5; 50; 5000]%Q)
    as (table & before & after & Hw & _); try reflexivity.
  vm_compute in Hw. discriminate.
Qed.

(** * Further properties *)

(** ** Dates and grid *)

Lemma item_last_cons {A : Type} (a : A) (l : list A) :
  l <> [] -> item_last (a :: l) = item_last l.
Proof. destruct l; [contradiction | reflexivity]. Qed.

Lemma strictly_increasing_bounds (l : list Z) :
  strictly_increasing l = true ->
  forall a b : Z, item_first l = Return a -> item_last l = Return b -> a <= b.
Proof.
  induction l as [| x [| y rest] IH]; intros Hs a b Ha Hb.
  - discriminate.
  - cbn in Ha, Hb. injection Ha as <-. injection Hb as <-. lia.
  - cbn in Ha. injection Ha as <-.
    change (strictly_increasing (x :: y :: rest))
      with ((x <? y)%Z && strictly_increasing (y :: rest)) in Hs.
    apply andb_true_iff in Hs as [Hxy Hs]. apply Z.ltb_lt in Hxy.
    rewrite item_last_cons in Hb by discriminate.
    specialize (IH Hs y b eq_refl Hb). lia.
Qed.


Lemma item_last_nth {A : Type} (l : list A) (x : A) :
  item_last l = Return x <-> nth_error l (Nat.pred (length l)) = Some x /\ l <> [].
Proof.
  induction l as [| a [| b rest] IH].
  - cbn. split; [discriminate | intros [_ H]; contradiction].
  - cbn. split.
    + intros [= ->]. split; [reflexivity | discriminate].
    + intros [[= ->] _]. reflexivity.
  - rewrite item_last_cons by discriminate. rewrite IH. cbn.
    split; intros [H _]; (split; [exact H | discriminate]).
Qed.

Lemma date_range_nonempty (start end_ freq : Z) :
  0 < freq -> start <= end_ -> date_range start end_ freq <> [].
Proof.
  intros Hf Hle Hnil. apply (f_equal (@length Z)) in Hnil.
  rewrite date_range_length in Hnil. cbn in Hnil.
  assert (0 <= (end_ - start) / freq) by (apply Z.div_pos; lia). lia.
Qed.

(** X5. When the first date does not come after the last, the grid is
    not empty: it starts at the first date, has
    [(end - start) / 3h + 1] points, and its last point lies within less
    than three hours before the last date. *)
Theorem interp_x_extent (dates : list Z) (start end_ : Z) :
  item_first dates = Return start ->
  item_last dates = Return end_ ->
  start <= end_ ->
  exists (grid : list Z) (g : Z),
    interp_x dates = Return grid /\
    item_first grid = Return start /\
    item_last grid = Return g /\
    end_ - 180 < g <= end_ /\
    Z.of_nat (length grid) = (end_ - start) / 180 + 1.
Proof.
  intros Hs He Hle.
  assert (0 <= (end_ - start) / 180) as Hq by (apply Z.div_pos; lia).
  pose proof (Z.div_mod (end_ - start) 180 ltac:(lia)) as Hd.
  pose proof (Z.mod_pos_bound (end_ - start) 180 ltac:(lia)) as Hm.
  set (n := Z.to_nat ((end_ - start) / 180 + 1)).
  assert (Z.of_nat n = (end_ - start) / 180 + 1) as Hn by (subst n; lia).
  clearbody n.
  assert (length (date_range start end_ 180) = n) as Hlen
    by (rewrite date_range_length; lia).
  exists (date_range start end_ 180), (start + 180 * Z.of_nat (Nat.pred n)).
  split; [| split; [| split; [| split]]].
  - unfold interp_x. rewrite Hs, He. reflexivity.
  - pose proof (date_range_nth start end_ 180 0) as H0.
    rewrite Hlen in H0. specialize (H0 ltac:(lia)).
    destruct (date_range start end_ 180) as [| x rest]; [discriminate |].
    cbn in H0. injection H0 as ->. cbn. f_equal. lia.
  - apply item_last_nth. split.
    + rewrite Hlen. apply date_range_nth. rewrite Hlen. lia.
    + apply date_range_nonempty; [reflexivity | assumption].
  - assert (Z.of_nat (Nat.pred n) = (end_ - start) / 180) as -> by lia. lia.
  - rewrite Hlen. lia.
Qed.

Lemma interp_x_nonempty (dates grid : list Z) :
  strictly_increasing dates = true ->
  interp_x dates = Return grid -> grid <> [].
Proof.
  intros Hs. unfold interp_x.
  destruct (item_first dates) as [start | e] eqn:Ha; [| discriminate].
  destruct (item_last dates) as [end_ | e] eqn:Hb; [| discriminate].
  cbn. intros [= <-]. apply date_range_nonempty; [reflexivity |].
  now apply (strictly_increasing_bounds dates).
Qed.

(** ** The chains together *)

(** X2. With the thresholds of a reach increasing with the return period,
    the color tells the band of the return-period label: "purple" goes
    with "50" and "100", "red" with "10" and "25", "yellow" with "2" and
    "5", and "blue" with "0". *)
Theorem color_matches_ret_per (rp_df : gmap Z thresholds) (comid : Z)
    (th : thresholds) (f_mean : Q) :
  rp_df !! comid = Some th ->
  increasing th ->
  exists c r : string,
    color_of rp_df comid f_mean = Return c /\
    ret_per_of rp_df comid f_mean = Return r /\
    (c = "purple" <-> r = "50" \/ r = "100") /\
    (c = "red" <-> r = "10" \/ r = "25") /\
    (c = "yellow" <-> r = "2" \/ r = "5") /\
    (c = "blue" <-> r = "0").
Proof.
  intros H (H2 & H5 & H10 & H25 & H50).
  exists (color_chain th f_mean), (ret_per_chain th f_mean).
  rewrite (color_of_found _ _ _ _ H), (ret_per_of_found _ _ _ _ H).
  do 2 (split; [reflexivity |]).
  unfold color_chain, ret_per_chain.
  split_comparisons;
    repeat split; intros; repeat match goal with H : _ \/ _ |- _ => destruct H end;
    try discriminate; auto.
Qed.

(** ** The loop header *)

Lemma zip4_length (comids : list Z) :
  forall (new_dates : list string) (maxlist meanlist : list (list Q)),
    length (zip4 comids new_dates maxlist meanlist)
    = Nat.min (Nat.min (length comids) (length new_dates))
              (Nat.min (length maxlist) (length meanlist)).
Proof.
  induction comids as [| comid comids IH]; intros [| date new_dates]
    [| maxes maxlist] [| means meanlist]; cbn; try lia.
  rewrite IH. lia.
Qed.

Lemma zip4_nth (comids : list Z) :
  forall (new_dates : list string) (maxlist meanlist : list (list Q))
         (k : nat) (comid : Z) (date : string) (maxes means : list Q),
    nth_error comids k = Some comid ->
    nth_error new_dates k = Some date ->
    nth_error maxlist k = Some maxes ->
    nth_error meanlist k = Some means ->
    nth_error (zip4 comids new_dates maxlist meanlist) k
    = Some (PyTuple [PyInt comid; PyStr date; PyFloats maxes; PyFloats means]).
Proof.
  induction comids as [| c comids IH]; intros [| d new_dates]
    [| mx maxlist] [| mn meanlist] [| k]; cbn; intros; try discriminate.
  - congruence.
  - now apply IH.
Qed.

Lemma enumerate_from_nth (it : list pyval) :
  forall (index k : nat) (v : pyval),
    nth_error it k = Some v ->
    nth_error (enumerate_from index it) k = Some [PyInt (Z.of_nat (index + k)); v].
Proof.
  induction it as [| x rest IH]; intros index [| k] v; cbn; try discriminate.
  - intros [= ->]. now rewrite Nat.add_0_r.
  - intros H. rewrite (IH (S index) k v H).
    replace (S index + k)%nat with (index + S k)%nat by lia. reflexivity.
Qed.

(** X4. The loop header goes through a list with as many items as the
    shortest of the reach ids, the grid, the maxima and the means has
    entries, and item [k] is the pair of the index [k] and the tuple of
    reach [k] with grid timestamp [k]: the reaches are zipped with the
    grid timestamps. When this list is empty the loop returns the table
    it started from; otherwise it raises a [ValueError] at the first
    item, a pair that does not unpack into five targets, so that no pass
    runs its body. *)
Theorem loop_items_zip (pchip_value : list Z -> list Q -> Z -> Q) (round2 : Q -> Q)
    (strftime : Z -> string) (f : forecast) (dt_dates grid : list Z) :
  length (loop_items strftime f grid)
  = Nat.min (Nat.min (length (comids f)) (length grid))
            (Nat.min (length (maxlist f)) (length (meanlist f))) /\
  (forall (k : nat) (comid t : Z) (maxes means : list Q),
     nth_error (comids f) k = Some comid ->
     nth_error grid k = Some t ->
     nth_error (maxlist f) k = Some maxes ->
     nth_error (meanlist f) k = Some means ->
     nth_error (loop_items strftime f grid) k
     = Some [PyInt (Z.of_nat k);
             PyTuple [PyInt comid; PyStr (strftime t); PyFloats maxes; PyFloats means]]) /\
  (forall summary_table_df : list row,
     for_each (loop_step pchip_value round2 (rp_df f) dt_dates grid (map strftime grid))
              (loop_items strftime f grid) summary_table_df
     = if (length (loop_items strftime f grid) =? 0)%nat
       then Return summary_table_df else Raise ValueError).
Proof.
  split; [| split].
  - unfold loop_items, enumerate.
    now rewrite enumerate_from_length, zip4_length, length_map.
  - intros k comid t maxes means Hc Hg Hx Hm. unfold loop_items, enumerate.
    apply (enumerate_from_nth _ 0 k). apply zip4_nth; trivial.
    now rewrite nth_error_map, Hg.
  - intros acc.
    destruct (loop_items strftime f grid) as [| item rest] eqn:E; [reflexivity |].
    cbn [for_each length Nat.eqb].
    rewrite (loop_step_enumerated pchip_value round2 _ _ _ _
               (zip4 (comids f) (map strftime grid) (maxlist f) (meanlist f)));
      [reflexivity |].
    fold (loop_items strftime f grid). rewrite E. now left.
Qed.

(** ** The loop *)

Lemma for_each_all_return (step : list pyval -> result (list row))
    (items : list (list pyval)) (blocks : list (list row)) :
  Forall2 (fun item block => step item = Return block) items blocks ->
  forall summary_table_df : list row,
    for_each step items summary_table_df
    = Return (summary_table_df ++ concat blocks).
Proof.
  induction 1 as [| item block items blocks Hstep _ IH]; intros acc; cbn.
  - now rewrite app_nil_r.
  - rewrite Hstep. cbn. rewrite IH. now rewrite app_assoc.
Qed.

(** X7. The loop returns exactly when every pass returns, and then the
    table is the one it started from followed by the blocks of the passes
    in loop order. *)
Theorem for_each_returns_iff (step : list pyval -> result (list row))
    (items : list (list pyval)) (summary_table_df table : list row) :
  for_each step items summary_table_df = Return table <->
  exists blocks : list (list row),
    Forall2 (fun item block => step item = Return block) items blocks /\
    table = summary_table_df ++ concat blocks.
Proof.
  split.
  - apply for_each_return.
  - intros (blocks & HF & ->). now apply for_each_all_return.
Qed.

(** X8. The loop stops at the first pass that raises, with the exception
    of that pass: the items after it are not visited, whatever they
    are. *)
Theorem for_each_first_failure (step : list pyval -> result (list row))
    (before after : list (list pyval)) (item : list pyval)
    (blocks : list (list row)) (e : exn) (summary_table_df : list row) :
  Forall2 (fun item block => step item = Return block) before blocks ->
  step item = Raise e ->
  for_each step (before ++ item :: after) summary_table_df = Raise e.
Proof.
  intros HF He. revert summary_table_df.
  induction HF as [| first block before blocks Hstep _ IH]; intros acc; cbn.
  - now rewrite He.
  - rewrite Hstep. cbn. apply IH.
Qed.

Lemma item_last_returns {A : Type} (l : list A) :
  l <> [] -> exists x : A, item_last l = Return x.
Proof.
  induction l as [| a [| b l] IH]; intros H.
  - contradiction.
  - now exists a.
  - rewrite item_last_cons by discriminate. apply IH. discriminate.
Qed.

Lemma interp_x_returns (dates : list Z) :
  dates <> [] -> exists grid : list Z, interp_x dates = Return grid.
Proof.
  intros H. destruct (item_last_returns dates H) as [end_ He].
  destruct dates as [| start rest]; [contradiction |].
  unfold interp_x. rewrite He. cbn. eauto.
Qed.



Lemma format_dates_length (utc_string : Z -> result string) (rawdates : list Z) :
  forall acc dates : list string,
    format_dates utc_string rawdates acc = Return dates ->
    length dates = (length acc + length rawdates)%nat.
Proof.
  induction rawdates as [| date rest IH]; intros acc dates; cbn.
  - intros [= <-]. lia.
  - destruct (utc_string date) as [s | e]; cbn; [| discriminate].
    intros H. apply IH in H. rewrite length_app in H. cbn in H. lia.
Qed.

Section RunProperties.

Variable pchip_value : list Z -> list Q -> Z -> Q.
Variable round2 : Q -> Q.
Variable strftime : Z -> string.
Variable utc_string : Z -> result string.
Variable timestamp : string -> Z.
Variable to_datetime : string -> Z.

(** X1. On the grid of its dates, the body of the loop returns a block
    for a reach exactly when there are at least two dates, the dates
    increase strictly, the maxima and the means have one value per date,
    and the reach has a row in [rp_df]. *)
Theorem site_summary_returns_iff (rp_df : gmap Z thresholds)
    (dates grid : list Z) (comid : Z) (maxes means : list Q) :
  interp_x dates = Return grid ->
  (exists block : list row,
     site_summary pchip_value round2 rp_df dates grid (map strftime grid)
                  comid maxes means = Return block) <->
  (2 <= length dates)%nat /\ strictly_increasing dates = true /\
  length maxes = length dates /\ length means = length dates /\
  is_Some (rp_df !! comid).
Proof.
  intros Hg. split.
  - intros (block & H).
    destruct (pchip pchip_value dates maxes) as [pmax |] eqn:Emax.
    2: { unfold site_summary in H. rewrite Emax in H. discriminate. }
    destruct (pchip pchip_value dates means) as [pmean |] eqn:Emean.
    2: { unfold site_summary in H. rewrite Emax, Emean in H. discriminate. }
    destruct (rp_df !! comid) as [th |] eqn:Hrp.
    + apply pchip_inv in Emax as (_ & ? & ? & ?).
      apply pchip_inv in Emean as (_ & ? & ? & ?).
      repeat split; trivial; now exists th.
    + assert (grid <> []) as Hne.
      { apply pchip_inv in Emax as (_ & _ & _ & Hs).
        exact (interp_x_nonempty dates grid Hs Hg). }
      rewrite (site_summary_missing_thresholds pchip_value round2 rp_df dates grid
                 (map strftime grid) comid maxes means pmax pmean Emax Emean Hne Hrp)
        in H.
      discriminate.
  - intros (H2 & Hs & Hx & Hm & th & Hrp).
    unfold site_summary.
    rewrite (pchip_accepts pchip_value dates maxes H2 Hx Hs),
      (pchip_accepts pchip_value dates means H2 Hm Hs).
    cbn. rewrite (classify_found _ _ _ _ Hrp). cbn. eauto.
Qed.



End RunProperties.

(** ** Paths *)

#[local] Arguments String.append !s1 s2 : simpl nomatch.

Lemma append_nil_r (s : string) : (s ++ "")%string = s.
Proof. induction s as [| c s IH]; [reflexivity |]. cbn [append]. now f_equal. Qed.

Lemma append_assoc (a b c : string) :
  (a ++ (b ++ c))%string = ((a ++ b) ++ c)%string.
Proof. induction a as [| x a IH]; [reflexivity |]. cbn [append]. now f_equal. Qed.

Lemma append_nil_inv (a b : string) :
  (a ++ b)%string = EmptyString -> a = EmptyString /\ b = EmptyString.
Proof. destruct a; cbn; [auto | discriminate]. Qed.

Lemma is_sep_true (c : ascii) : is_sep c = true <-> c = "/"%char.
Proof. apply Ascii.eqb_eq. Qed.

Lemma has_sep_app (a b : string) :
  has_sep (a ++ b)%string = has_sep a || has_sep b.
Proof.
  induction a as [| c a IH]; cbn; [reflexivity |].
  now rewrite IH, orb_assoc.
Qed.

Lemma cut_last_sep_name (t : string) :
  has_sep t = false -> cut_last_sep t = (EmptyString, t).
Proof.
  destruct t as [| c r]; cbn; [reflexivity |].
  intros H. apply orb_false_iff in H as [-> ->]. reflexivity.
Qed.

Lemma has_sep_app_sep (h t : string) : has_sep (h ++ String "/" t)%string = true.
Proof. rewrite has_sep_app. cbn [has_sep]. apply orb_true_r. Qed.

Lemma cut_last_sep_cons (c : ascii) (rest : string) :
  has_sep rest = true ->
  cut_last_sep (String c rest)
  = (String c (fst (cut_last_sep rest)), snd (cut_last_sep rest)).
Proof.
  intros H. cbn [cut_last_sep]. rewrite H. now destruct (cut_last_sep rest).
Qed.

Lemma cut_last_sep_app (h t : string) :
  has_sep t = false ->
  cut_last_sep (h ++ "/" ++ t)%string = ((h ++ "/")%string, t).
Proof.
  intros Ht. change ("/" ++ t)%string with (String "/" t).
  induction h as [| c h IH].
  - cbn. now rewrite Ht.
  - change (String c h ++ String "/" t)%string with (String c (h ++ String "/" t)).
    rewrite cut_last_sep_cons by apply has_sep_app_sep.
    now rewrite IH.
Qed.

Lemma rstrip_sep_name (n : string) :
  has_sep n = false -> rstrip_sep (n ++ "/")%string = n.
Proof.
  induction n as [| c r IH]; [reflexivity |].
  cbn [has_sep]. intros H. apply orb_false_iff in H as [Hc Hr].
  cbn [append rstrip_sep]. rewrite (IH Hr), Hc. now destruct r.
Qed.

Lemma rstrip_sep_app (h n : string) :
  is_name n -> rstrip_sep (h ++ n ++ "/")%string = (h ++ n)%string.
Proof.
  intros [Hne Hn]. induction h as [| c h IH].
  - cbn. now apply rstrip_sep_name.
  - cbn [append rstrip_sep]. rewrite IH.
    destruct (h ++ n)%string eqn:E; [| reflexivity].
    apply append_nil_inv in E as [_ ->]. contradiction.
Qed.

Lemma all_sep_app_name (h n rest : string) :
  is_name n -> all_sep (h ++ n ++ rest)%string = false.
Proof.
  intros [Hne Hn]. induction h as [| c h IH].
  - destruct n as [| x n]; [contradiction |]. cbn in *.
    apply orb_false_iff in Hn as [-> _]. reflexivity.
  - cbn [append all_sep]. rewrite IH. apply andb_false_r.
Qed.

Lemma path_split_tail (p : string) : snd (path_split p) = snd (cut_last_sep p).
Proof.
  unfold path_split. destruct (cut_last_sep p) as [head tail].
  now destruct (negb (String.eqb head "") && negb (all_sep head)).
Qed.

Lemma path_split_app (h n t : string) :
  is_name n -> has_sep t = false ->
  path_split (h ++ n ++ "/" ++ t)%string = ((h ++ n)%string, t).
Proof.
  intros Hn Ht. unfold path_split.
  rewrite (append_assoc h n), (cut_last_sep_app (h ++ n) t Ht).
  rewrite <- (append_assoc h n "/"), (all_sep_app_name h n "/" Hn).
  rewrite (rstrip_sep_app h n Hn).
  destruct (h ++ n ++ "/")%string eqn:E; [| reflexivity].
  apply append_nil_inv in E as [_ E]. apply append_nil_inv in E as [_ E].
  discriminate.
Qed.

Lemma endswith_sep_inv (h : string) :
  endswith_sep h = true -> exists h0 : string, h = (h0 ++ "/")%string.
Proof.
  induction h as [| c [| d r] IH]; intros H.
  - discriminate.
  - cbn in H. apply is_sep_true in H as ->. now exists EmptyString.
  - destruct (IH H) as [h0 E]. exists (String c h0). cbn. now rewrite <- E.
Qed.

Lemma endswith_sep_app (a : string) : endswith_sep (a ++ "/")%string = true.
Proof.
  induction a as [| c [| d r] IH]; [reflexivity | reflexivity |].
  exact IH.
Qed.

Lemma endswith_sep_name (h n : string) :
  is_name n -> endswith_sep (h ++ n)%string = false.
Proof.
  intros [Hne Hn].
  assert (endswith_sep n = false) as En.
  { clear Hne. induction n as [| c [| d r] IH]; [reflexivity | |].
    - cbn in *. now apply orb_false_iff in Hn as [-> _].
    - apply IH. change (is_sep c || has_sep (String d r) = false) in Hn.
      now apply orb_false_iff in Hn as [_ Hn]. }
  induction h as [| c h IH]; [exact En |].
  cbn [append endswith_sep]. destruct (h ++ n)%string eqn:E; [| exact IH].
  apply append_nil_inv in E as [_ ->]. contradiction.
Qed.

Lemma path_split_tail_name (h n : string) :
  h = EmptyString \/ endswith_sep h = true ->
  has_sep n = false ->
  snd (path_split (h ++ n)%string) = n.
Proof.
  intros [-> | H] Hn; rewrite path_split_tail.
  - cbn. now rewrite cut_last_sep_name.
  - apply endswith_sep_inv in H as [h0 ->].
    rewrite <- append_assoc. cbn [append].
    change (String "/" n) with ("/" ++ n)%string.
    now rewrite cut_last_sep_app.
Qed.

Lemma prefix_sep_name (n : string) :
  has_sep n = false -> String.prefix "/" n = false.
Proof.
  destruct n as [| c r]; [reflexivity |]. cbn [has_sep].
  intros H. apply orb_false_iff in H as [Hc _].
  change (String.prefix "/" (String c r))
    with (if ascii_dec "/" c then String.prefix "" r else false).
  destruct (ascii_dec "/" c) as [<- |]; [discriminate | reflexivity].
Qed.

(** The shape of a path that joins a name to a directory. *)
Lemma path_join_name (a n : string) :
  has_sep n = false ->
  exists h : string,
    path_join a n = (h ++ n)%string /\ (h = EmptyString \/ endswith_sep h = true).
Proof.
  intros Hn. unfold path_join. rewrite (prefix_sep_name n Hn).
  destruct (String.eqb_spec a "") as [-> | Ha]; cbn [orb].
  - exists EmptyString. auto.
  - destruct (endswith_sep a) eqn:E.
    + exists a. auto.
    + exists (a ++ "/")%string. rewrite <- append_assoc.
      split; [reflexivity | right; apply endswith_sep_app].
Qed.

Lemma path_join_under (a n : string) :
  a <> EmptyString -> endswith_sep a = false -> has_sep n = false ->
  path_join a n = (a ++ "/" ++ n)%string.
Proof.
  intros Ha E Hn. unfold path_join. rewrite (prefix_sep_name n Hn), E.
  now destruct (String.eqb_spec a "").
Qed.

(** X9. For the folder [d] of the watershed folder [w] of a work
    directory, joined as the main block joins them, the csv file is named
    after the watershed and the date folder without its dots:
    [summary_table_<w>_<d without dots>.csv]. *)
Theorem file_name_of_joined (workdir w d : string) :
  is_name w -> is_name d ->
  file_name (path_join (path_join workdir w) d)
  = ("summary_table_" ++ w ++ "_" ++ remove_dots d ++ ".csv")%string.
Proof.
  intros Hw Hd.
  destruct (path_join_name workdir w (proj2 Hw)) as (h & -> & Hh).
  rewrite path_join_under.
  - unfold file_name. rewrite <- append_assoc.
    rewrite (path_split_app h w d Hw (proj2 Hd)). cbn [fst snd].
    now rewrite (path_split_tail_name h w Hh (proj2 Hw)).
  - intros E. apply append_nil_inv in E as [_ ->]. now destruct Hw.
  - now apply endswith_sep_name.
  - exact (proj2 Hd).
Qed.

(** X10. A workspace given with a trailing separator loses its date: the
    csv file is named after the date folder, dots kept, where the
    watershed should be, and the date part is empty. *)
Theorem file_name_trailing_sep (h d : string) :
  is_name d ->
  file_name (h ++ "/" ++ d ++ "/")%string
  = ("summary_table_" ++ d ++ "_" ++ ".csv")%string.
Proof.
  intros Hd. unfold file_name.
  assert (path_split (h ++ "/" ++ d ++ "/")%string = ((h ++ "/" ++ d)%string, EmptyString)) as E.
  { rewrite (append_assoc h "/" (d ++ "/")).
    rewrite <- (append_nil_r (d ++ "/")), <- (append_assoc d "/" "").
    rewrite (path_split_app (h ++ "/") d "" Hd eq_refl).
    now rewrite <- append_assoc. }
  rewrite E. cbn [fst snd remove_dots].
  rewrite (append_assoc h "/" d).
  now rewrite (path_split_tail_name (h ++ "/") d (or_intror (endswith_sep_app h)) (proj2 Hd)).
Qed.

(** ** The workspaces of the main block *)

(** X11. The folders that the main block hands to
    [extract_summary_table] are exactly the directories [d] of the
    directories [w] of the work directory, joined as [workdir/w/d]; the
    exclusion list, being empty, removes none. *)
Theorem main_dates_spec (listdir : string -> list string) (isdir : string -> bool)
    (workdir p : string) :
  In p (main_dates listdir isdir workdir) <->
  exists w d : string,
    In w (listdir workdir) /\
    isdir (path_join workdir w) = true /\
    In d (listdir (path_join workdir w)) /\
    isdir (path_join (path_join workdir w) d) = true /\
    p = path_join (path_join workdir w) d.
Proof.
  unfold main_dates, watersheds. rewrite in_flat_map. split.
  - intros (watershed & Hw & Hp).
    apply in_map_iff in Hw as (w & <- & Hw).
    apply filter_In in Hw as [Hw Hdir].
    apply in_flat_map in Hp as (d & Hd & Hp).
    cbn [exclude_list existsb negb andb] in Hp.
    destruct (isdir (path_join (path_join workdir w) d)) eqn:E; [| destruct Hp].
    destruct Hp as [<- | []]. exists w, d. auto.
  - intros (w & d & Hw & Hdir & Hd & Hdir' & ->).
    exists (path_join workdir w). split.
    + apply in_map_iff. exists w. split; [reflexivity |].
      apply filter_In. auto.
    + apply in_flat_map. exists d. split; [assumption |].
      cbn [exclude_list existsb negb andb]. rewrite Hdir'. now left.
Qed.

(** ** The statistics files *)

Lemma prefix_app (a : string) :
  forall n b : string,
    String.prefix n a = true -> String.prefix n (a ++ b)%string = true.
Proof.
  induction a as [| c a IH]; intros [| x n] b; cbn [String.prefix append];
    trivial; try discriminate.
  - intros _. now destruct b.
  - destruct (ascii_dec x c); [apply IH | discriminate].
Qed.

Lemma contains_app_l (needle a b : string) :
  contains needle a = true -> contains needle (a ++ b)%string = true.
Proof.
  induction a as [| c a IH].
  - cbn [contains append]. rewrite orb_false_r. intros H.
    destruct needle; [| discriminate]. now destruct b.
  - cbn [contains append]. intros H. apply orb_true_iff in H as [H | H].
    + pose proof (prefix_app (String c a) needle b H) as Hp.
      cbn [append] in Hp. now rewrite Hp.
    + rewrite (IH H). apply orb_true_r.
Qed.

Lemma path_join_contains (needle a file : string) :
  contains needle a = true ->
  String.prefix "nces" file = true ->
  contains needle (path_join a file) = true.
Proof.
  intros Ha Hf. unfold path_join.
  assert (String.prefix "/" file = false) as ->.
  { destruct file as [| c r]; [discriminate |].
    change (String.prefix "nces" (String c r))
      with (if ascii_dec "n" c then String.prefix "ces" r else false) in Hf.
    change (String.prefix "/" (String c r))
      with (if ascii_dec "/" c then String.prefix "" r else false).
    destruct (ascii_dec "n" c) as [<- |]; [reflexivity | discriminate]. }
  destruct (String.eqb a "" || endswith_sep a); now apply contains_app_l.
Qed.

Lemma nclist_in (workspace : string) (listing : list (string * dataset))
    (f : string * dataset) :
  In f (nclist workspace listing) <->
  exists file : string,
    In (file, snd f) listing /\ String.prefix "nces" file = true /\
    fst f = path_join workspace file.
Proof.
  induction listing as [| [file res] rest IH]; cbn [nclist].
  - split; [intros [] | intros (_ & [] & _)].
  - destruct (String.prefix "nces" file) eqn:E; cbn [In]; rewrite IH; split.
    + intros [<- | (file' & H & Hp & Hf)].
      * exists file. cbn. auto.
      * exists file'. auto.
    + intros (file' & [[= <- Hres] | H] & Hp & Hf).
      * left. destruct f as [path res']. cbn in *. congruence.
      * right. exists file'. auto.
    + intros (file' & H & Hp & Hf). exists file'. auto.
    + intros (file' & [[= <- Hres] | H] & Hp & Hf); [congruence |].
      exists file'. auto.
Qed.

Lemma insert_by_path_in (f g : string * dataset) (l : list (string * dataset)) :
  In g (insert_by_path f l) <-> g = f \/ In g l.
Proof.
  induction l as [| h l IH]; cbn [insert_by_path In].
  - intuition.
  - destruct (String.leb (fst f) (fst h)); cbn [In]; [intuition |].
    rewrite IH. intuition.
Qed.

Lemma sorted_in (g : string * dataset) (l : list (string * dataset)) :
  In g (sorted l) <-> In g l.
Proof.
  induction l as [| f l IH]; cbn [sorted fold_right In]; [reflexivity |].
  fold (sorted l). rewrite insert_by_path_in, IH. intuition.
Qed.

Lemma insert_by_path_filter (p : string * dataset -> bool) (f : string * dataset)
    (l : list (string * dataset)) :
  length (List.filter p (insert_by_path f l)) = length (List.filter p (f :: l)).
Proof.
  induction l as [| h l IH]; [reflexivity |].
  cbn [insert_by_path]. destruct (String.leb (fst f) (fst h)); [reflexivity |].
  cbn [List.filter] in *. destruct (p h), (p f); cbn [length] in *; lia.
Qed.

Lemma sorted_filter (p : string * dataset -> bool) (l : list (string * dataset)) :
  length (List.filter p (sorted l)) = length (List.filter p l).
Proof.
  induction l as [| f l IH]; [reflexivity |].
  cbn [sorted fold_right]. fold (sorted l). rewrite insert_by_path_filter.
  cbn [List.filter]. destruct (p f); cbn [length]; now rewrite IH.
Qed.

Lemma interp_x_raises (dates : list Z) (e : exn) :
  interp_x dates = Raise e -> e = IndexError.
Proof.
  destruct dates as [| d rest]; [now intros [= <-] |].
  destruct (interp_x_returns (d :: rest)) as [grid ->]; discriminate.
Qed.

Lemma zip4_no_means (comids : list Z) (new_dates : list string)
    (maxlist : list (list Q)) :
  zip4 comids new_dates maxlist [] = [].
Proof. now destruct comids, new_dates, maxlist. Qed.

Section LoadingProperties.

Variable pchip_value : list Z -> list Q -> Z -> Q.
Variable round2 : Q -> Q.
Variable strftime : Z -> string.
Variable utc_string : Z -> result string.
Variable timestamp : string -> Z.
Variable to_datetime : string -> Z.

Lemma Qout_row_raises (res : dataset) (index : nat) (e : exn) :
  Qout_row res index = Raise e -> e = IndexError.
Proof. unfold Qout_row. destruct (nth_error (Qout res) index); now intros [= <-]. Qed.

Lemma load_file_raises (ncfile : string) (res : dataset) (comids : list Z) :
  forall (index : nat) (maxlist meanlist : list (list Q)) (e : exn),
    load_file round2 ncfile res index comids maxlist meanlist = Raise e ->
    e = IndexError.
Proof.
  induction comids as [| comid rest IH]; intros index mx mn e; cbn [load_file].
  - discriminate.
  - destruct (contains "max" ncfile); [| destruct (contains "avg" ncfile)].
    + destruct (Qout_row res index) eqn:E; cbn.
      * apply IH.
      * intros [= <-]. exact (Qout_row_raises _ _ _ E).
    + destruct (Qout_row res index) eqn:E; cbn.
      * apply IH.
      * intros [= <-]. exact (Qout_row_raises _ _ _ E).
    + apply IH.
Qed.

Lemma load_file_lengths (ncfile : string) (res : dataset) (comids : list Z) :
  forall (index : nat) (maxlist meanlist maxlist' meanlist' : list (list Q)),
    load_file round2 ncfile res index comids maxlist meanlist
    = Return (maxlist', meanlist') ->
    length maxlist'
    = (length maxlist
       + if feeds_maxlist (ncfile, res) then length comids else 0)%nat /\
    length meanlist'
    = (length meanlist
       + if feeds_meanlist (ncfile, res) then length comids else 0)%nat.
Proof.
  unfold feeds_maxlist, feeds_meanlist. cbn [fst].
  induction comids as [| comid rest IH]; intros index mx mn mx' mn';
    cbn [load_file length].
  - intros [= <- <-]. destruct (contains "max" ncfile), (contains "avg" ncfile);
      cbn; lia.
  - destruct (contains "max" ncfile); [| destruct (contains "avg" ncfile)]; cbn [negb andb] in *.
    + destruct (Qout_row res index); cbn; [| discriminate].
      intros H. apply IH in H. rewrite length_app in H. cbn in H. lia.
    + destruct (Qout_row res index); cbn; [| discriminate].
      intros H. apply IH in H. rewrite length_app in H. cbn in H. lia.
    + intros H. apply IH in H. lia.
Qed.

Lemma load_file_short (ncfile : string) (res : dataset) (comids : list Z) :
  feeds_maxlist (ncfile, res) = true \/ feeds_meanlist (ncfile, res) = true ->
  forall (index : nat) (maxlist meanlist : list (list Q)),
    (index <= length (Qout res) < index + length comids)%nat ->
    load_file round2 ncfile res index comids maxlist meanlist = Raise IndexError.
Proof.
  unfold feeds_maxlist, feeds_meanlist. cbn [fst]. intros Hfeed.
  induction comids as [| comid rest IH]; intros index mx mn Hlen;
    cbn [load_file length] in *; [lia |].
  assert (Qout_row res index = Raise IndexError \/
          exists q, Qout_row res index = Return q /\ (S index <= length (Qout res))%nat)
    as Hrow.
  { unfold Qout_row. destruct (nth_error (Qout res) index) as [q |] eqn:E.
    - right. exists q. split; [reflexivity |].
      apply Nat.le_succ_l. apply nth_error_Some. congruence.
    - now left. }
  destruct (contains "max" ncfile); [| destruct (contains "avg" ncfile)].
  - destruct Hrow as [-> | (q & -> & Hq)]; cbn; [reflexivity |]. apply IH. lia.
  - destruct Hrow as [-> | (q & -> & Hq)]; cbn; [reflexivity |]. apply IH. lia.
  - destruct Hfeed; discriminate.
Qed.

Lemma load_file_max (ncfile : string) (res : dataset) (comids : list Z) :
  contains "max" ncfile = true ->
  forall (index : nat) (maxlist meanlist : list (list Q)),
    (index + length comids <= length (Qout res))%nat ->
    exists maxlist' : list (list Q),
      load_file round2 ncfile res index comids maxlist meanlist
      = Return (maxlist', meanlist).
Proof.
  intros Hmax. induction comids as [| comid rest IH]; intros index mx mn Hlen;
    cbn [load_file length] in *.
  - now exists mx.
  - rewrite Hmax. unfold Qout_row.
    destruct (nth_error (Qout res) index) as [q |] eqn:E.
    + cbn. apply IH. lia.
    + apply nth_error_None in E. lia.
Qed.

Lemma load_files_raises (files : list (string * dataset)) (comids : list Z) :
  forall (maxlist meanlist : list (list Q)) (e : exn),
    load_files round2 files comids maxlist meanlist = Raise e -> e = IndexError.
Proof.
  induction files as [| [ncfile res] rest IH]; intros mx mn e; cbn [load_files].
  - discriminate.
  - destruct (load_file round2 ncfile res 0 comids mx mn) as [[mx' mn'] | e'] eqn:E; cbn.
    + apply IH.
    + intros [= <-]. exact (load_file_raises _ _ _ _ _ _ _ E).
Qed.

Lemma load_files_lengths (files : list (string * dataset)) (comids : list Z) :
  forall maxlist meanlist maxlist' meanlist' : list (list Q),
    load_files round2 files comids maxlist meanlist = Return (maxlist', meanlist') ->
    length maxlist'
    = (length maxlist + length comids * length (List.filter feeds_maxlist files))%nat /\
    length meanlist'
    = (length meanlist + length comids * length (List.filter feeds_meanlist files))%nat.
Proof.
  induction files as [| [ncfile res] rest IH]; intros mx mn mx' mn'; cbn [load_files].
  - intros [= <- <-]. cbn. lia.
  - destruct (load_file round2 ncfile res 0 comids mx mn) as [[mx1 mn1] | e'] eqn:E;
      cbn; [| discriminate].
    intros H. apply IH in H as [H1 H2].
    apply load_file_lengths in E as [E1 E2].
    change (List.filter feeds_maxlist ((ncfile, res) :: rest))
      with (if feeds_maxlist (ncfile, res)
            then (ncfile, res) :: List.filter feeds_maxlist rest
            else List.filter feeds_maxlist rest).
    change (List.filter feeds_meanlist ((ncfile, res) :: rest))
      with (if feeds_meanlist (ncfile, res)
            then (ncfile, res) :: List.filter feeds_meanlist rest
            else List.filter feeds_meanlist rest).
    unfold feeds_maxlist, feeds_meanlist in *. cbn beta in *. cbn [fst] in *.
    destruct (contains "max" ncfile), (contains "avg" ncfile);
      cbn [length negb andb] in *; rewrite ?Nat.mul_succ_r; lia.
Qed.

Lemma load_files_short (files : list (string * dataset)) (comids : list Z)
    (f : string * dataset) :
  In f files ->
  feeds_maxlist f = true \/ feeds_meanlist f = true ->
  (length (Qout (snd f)) < length comids)%nat ->
  forall maxlist meanlist : list (list Q),
    load_files round2 files comids maxlist meanlist = Raise IndexError.
Proof.
  intros Hin Hfeed Hlen.
  induction files as [| [ncfile res] rest IH]; intros mx mn; [destruct Hin |].
  cbn [load_files].
  destruct (load_file round2 ncfile res 0 comids mx mn) as [[mx1 mn1] | e'] eqn:E; cbn.
  - destruct Hin as [<- | Hin]; [| now apply IH].
    rewrite load_file_short in E; [discriminate | assumption | cbn in *; lia].
  - now rewrite (load_file_raises _ _ _ _ _ _ _ E).
Qed.

Lemma load_files_all_max (files : list (string * dataset)) (comids : list Z) :
  (forall f : string * dataset, In f files ->
     contains "max" (fst f) = true /\ (length comids <= length (Qout (snd f)))%nat) ->
  forall maxlist meanlist : list (list Q),
    exists maxlist' : list (list Q),
      load_files round2 files comids maxlist meanlist = Return (maxlist', meanlist).
Proof.
  induction files as [| [ncfile res] rest IH]; intros Hall mx mn; cbn [load_files].
  - now exists mx.
  - destruct (Hall (ncfile, res) (or_introl eq_refl)) as [Hmax Hlen]. cbn in Hmax, Hlen.
    destruct (load_file_max ncfile res comids Hmax 0 mx mn Hlen) as [mx1 ->]. cbn.
    apply IH. intros f Hf. apply Hall. now right.
Qed.

(** The run of the files is the run of the forecast they load. *)
Lemma summary_table_of_files_loaded (files : list (string * dataset))
    (rp_df : gmap Z thresholds) (first : string * dataset)
    (maxlist meanlist : list (list Q)) :
  item_first files = Return first ->
  load_files round2 (sorted files) (rivid (snd first)) [] [] = Return (maxlist, meanlist) ->
  summary_table_of_files round2 pchip_value strftime utc_string timestamp to_datetime
    files rp_df
  = summary_table pchip_value round2 strftime utc_string timestamp to_datetime
      (Forecast (rivid (snd first)) (time (snd first)) maxlist meanlist rp_df).
Proof.
  intros Hf Hl. unfold summary_table_of_files, summary_table. rewrite Hf. cbn.
  destruct (format_dates utc_string (time (snd first)) []) as [dates |]; cbn;
    [| reflexivity].
  destruct (interp_x (map timestamp dates)); cbn; [| reflexivity].
  now rewrite Hl.
Qed.

End LoadingProperties.

Section FileRunProperties.

Variable pchip_value : list Z -> list Q -> Z -> Q.
Variable round2 : Q -> Q.
Variable strftime : Z -> string.
Variable utc_string : Z -> result string.
Variable timestamp : string -> Z.
Variable to_datetime : string -> Z.

(** X12. When the statistics load, [maxlist] has one entry per reach for
    each file with 'max' in its path, and [meanlist] one entry per reach
    for each other file with 'avg' in its path; the remaining files add
    nothing. *)
Theorem load_files_counts (files : list (string * dataset)) (comids : list Z)
    (maxlist meanlist : list (list Q)) :
  load_files round2 (sorted files) comids [] [] = Return (maxlist, meanlist) ->
  length maxlist = (length comids * length (List.filter feeds_maxlist files))%nat /\
  length meanlist = (length comids * length (List.filter feeds_meanlist files))%nat.
Proof.
  intros H. apply load_files_lengths in H as [H1 H2].
  rewrite !sorted_filter in *. cbn [length] in *. lia.
Qed.

(** X13. With time stamps that all have a string, a statistics file that
    feeds [maxlist] or [meanlist] and holds fewer rows than the first
    listed statistics file has reaches ends the run in the handler: an
    [IndexError] is logged and nothing is written. *)
Theorem short_file_index_error (workspace : string)
    (listing : list (string * dataset)) (rp_df : gmap Z thresholds)
    (first f : string * dataset) (dates : list string) :
  item_first (nclist workspace listing) = Return first ->
  format_dates utc_string (time (snd first)) [] = Return dates ->
  In f (nclist workspace listing) ->
  feeds_maxlist f = true \/ feeds_meanlist f = true ->
  (length (Qout (snd f)) < length (rivid (snd first)))%nat ->
  extract_summary_table_of_files round2 pchip_value strftime utc_string timestamp
    to_datetime workspace listing rp_df
  = Outcome None None [IndexError].
Proof.
  intros Hfirst Hd Hin Hfeed Hlen.
  unfold extract_summary_table_of_files, summary_table_of_files.
  rewrite Hfirst. cbn. rewrite Hd. cbn.
  destruct (interp_x (map timestamp dates)) as [grid | e] eqn:Hg; cbn.
  - rewrite (load_files_short round2 (sorted (nclist workspace listing))
               (rivid (snd first)) f); trivial.
    now apply sorted_in.
  - now rewrite (interp_x_raises _ _ Hg).
Qed.

(** X14. With 'max' in the path of the workspace, every statistics file
    counts as a file of maxima and [meanlist] stays empty: when the files
    have a time stamp, every time stamp has a string, and there is a row
    per reach, the loop has nothing to go through and the run reports
    success with an empty table. *)
Theorem max_in_workspace_path (workspace : string)
    (listing : list (string * dataset)) (rp_df : gmap Z thresholds)
    (first : string * dataset) (dates : list string) :
  contains "max" workspace = true ->
  item_first (nclist workspace listing) = Return first ->
  time (snd first) <> [] ->
  format_dates utc_string (time (snd first)) [] = Return dates ->
  (forall f : string * dataset, In f (nclist workspace listing) ->
     (length (rivid (snd first)) <= length (Qout (snd f)))%nat) ->
  extract_summary_table_of_files round2 pchip_value strftime utc_string timestamp
    to_datetime workspace listing rp_df
  = Outcome (Some "Stat Success") (Some []) [].
Proof.
  intros Hmax Hfirst Htime Hd Hrows.
  unfold extract_summary_table_of_files, summary_table_of_files.
  rewrite Hfirst. cbn. rewrite Hd. cbn.
  destruct (interp_x_returns (map timestamp dates)) as [grid ->].
  { apply format_dates_length in Hd.
    destruct (time (snd first)); [contradiction |].
    destruct dates; [cbn in Hd; lia | discriminate]. }
  cbn.
  destruct (load_files_all_max round2 (sorted (nclist workspace listing))
              (rivid (snd first))) with (maxlist := @nil (list Q)) (meanlist := @nil (list Q))
    as [maxlist ->].
  - intros f Hf. apply (proj1 (sorted_in _ _)) in Hf. split; [| now apply Hrows].
    apply nclist_in in Hf as (file & _ & Hp & ->).
    now apply path_join_contains.
  - cbn. now rewrite zip4_no_means.
Qed.

(** X16. Whatever the files of the workspace hold, a table that the run
    writes has no row. *)
Theorem files_table_empty (workspace : string)
    (listing : list (string * dataset)) (rp_df : gmap Z thresholds)
    (table : list row) :
  written (extract_summary_table_of_files round2 pchip_value strftime utc_string
             timestamp to_datetime workspace listing rp_df) = Some table ->
  table = [].
Proof.
  unfold extract_summary_table_of_files.
  destruct (item_first (nclist workspace listing)) as [first | e] eqn:Hf.
  - destruct (load_files round2 (sorted (nclist workspace listing))
                (rivid (snd first)) [] []) as [[maxlist meanlist] | e] eqn:Hl.
    + rewrite (summary_table_of_files_loaded pchip_value round2 strftime utc_string
                 timestamp to_datetime _ rp_df first maxlist meanlist Hf Hl).
      apply (written_table_empty pchip_value round2 strftime utc_string timestamp
               to_datetime
               (Forecast (rivid (snd first)) (time (snd first)) maxlist meanlist rp_df)).
    + unfold summary_table_of_files. rewrite Hf. cbn.
      destruct (format_dates utc_string (time (snd first)) []) as [dates |]; cbn;
        [| discriminate].
      destruct (interp_x (map timestamp dates)); cbn;
        [rewrite Hl |]; discriminate.
  - unfold summary_table_of_files. rewrite Hf. discriminate.
Qed.

(** X17. A workspace without a file named "nces..." ends the run in the
    handler with an [IndexError], whatever else it holds. *)
Theorem no_stat_file_index_error (workspace : string)
    (listing : list (string * dataset)) (rp_df : gmap Z thresholds) :
  (forall f : string * dataset, In f listing -> String.prefix "nces" (fst f) = false) ->
  extract_summary_table_of_files round2 pchip_value strftime utc_string timestamp
    to_datetime workspace listing rp_df
  = Outcome None None [IndexError].
Proof.
  intros H.
  assert (nclist workspace listing = []) as E.
  { induction listing as [| [file res] rest IH]; [reflexivity |].
    cbn [nclist]. pose proof (H (file, res) (or_introl eq_refl)) as Hp.
    cbn [fst] in Hp. rewrite Hp.
    apply IH. intros f Hf. apply H. now right. }
  unfold extract_summary_table_of_files, summary_table_of_files.
  now rewrite E.
Qed.

End FileRunProperties.

(** ** Sample evaluations of the further properties *)

Lemma site_summary_returns_iff_witness :
  interp_x [0; 60; 300] = Return [0; 180] /\
  ((exists block : list row,
      site_summary step_value no_round (rp_df one_reach) [0; 60; 300] [0; 180]
                   (map minute_label [0; 180]) 101 [5; 60; 5000]%Q [5; 50; 5000]%Q
      = Return block) <->
   (2 <= length [0; 60; 300])%nat /\ strictly_increasing [0; 60; 300] = true /\
   length [5; 60; 5000]%Q = length [0; 60; 300] /\
   length [5; 50; 5000]%Q = length [0; 60; 300] /\
   is_Some (rp_df one_reach !! 101)).
Proof.
  split; [reflexivity |].
  apply (site_summary_returns_iff step_value no_round minute_label (rp_df one_reach)
           [0; 60; 300] [0; 180] 101 [5; 60; 5000]%Q [5; 50; 5000]%Q).
  reflexivity.
Defined.

Lemma color_matches_ret_per_witness :
  rp_df one_reach !! 101 = Some rp_101 /\
  increasing rp_101 /\
  exists c r : string,
    color_of (rp_df one_reach) 101 600 = Return c /\
    ret_per_of (rp_df one_reach) 101 600 = Return r /\
    (c = "purple" <-> r = "50" \/ r = "100") /\
    (c = "red" <-> r = "10" \/ r = "25") /\
    (c = "yellow" <-> r = "2" \/ r = "5") /\
    (c = "blue" <-> r = "0").
Proof.
  split; [reflexivity |]. split; [exact rp_101_increasing |].
  apply (color_matches_ret_per (rp_df one_reach) 101 rp_101 600).
  - reflexivity.
  - exact rp_101_increasing.
Defined.

Lemma interp_x_extent_witness :
  item_first [0; 60; 300] = Return 0 /\
  item_last [0; 60; 300] = Return 300 /\
  0 <= 300 /\
  exists (grid : list Z) (g : Z),
    interp_x [0; 60; 300] = Return grid /\
    item_first grid = Return 0 /\
    item_last grid = Return g /\
    300 - 180 < g <= 300 /\
    Z.of_nat (length grid) = (300 - 0) / 180 + 1.
Proof.
  split; [reflexivity |]. split; [reflexivity |]. split; [lia |].
  apply (interp_x_extent [0; 60; 300] 0 300); [reflexivity | reflexivity | lia].
Defined.


Lemma for_each_first_failure_witness :
  Forall2
    (fun item block =>
       loop_step step_value no_round (rp_df one_reach) [0; 60; 300] [0; 180]
                 (map minute_label [0; 180]) item = Return block)
    [five_item] [five_item_block] /\
  loop_step step_value no_round (rp_df one_reach) [0; 60; 300] [0; 180]
            (map minute_label [0; 180]) pair_item = Raise ValueError /\
  for_each
    (loop_step step_value no_round (rp_df one_reach) [0; 60; 300] [0; 180]
               (map minute_label [0; 180]))
    ([five_item] ++ pair_item :: [five_item]) []
  = Raise ValueError.
Proof.
  assert (Forall2
            (fun item block =>
               loop_step step_value no_round (rp_df one_reach) [0; 60; 300] [0; 180]
                         (map minute_label [0; 180]) item = Return block)
            [five_item] [five_item_block]) as HF.
  { constructor; [reflexivity | constructor]. }
  split; [exact HF |]. split; [reflexivity |].
  apply (for_each_first_failure
           (loop_step step_value no_round (rp_df one_reach) [0; 60; 300] [0; 180]
                      (map minute_label [0; 180]))
           [five_item] [five_item] pair_item [five_item_block] ValueError [] HF).
  reflexivity.
Defined.

Lemma nam_co_is_name : is_name "nam-co".
Proof. split; [discriminate | reflexivity]. Defined.

Lemma date_folder_is_name : is_name "20200101.00".
Proof. split; [discriminate | reflexivity]. Defined.

Lemma file_name_of_joined_witness :
  is_name "nam-co" /\ is_name "20200101.00" /\
  file_name (path_join (path_join "/out" "nam-co") "20200101.00")
  = ("summary_table_" ++ "nam-co" ++ "_" ++ remove_dots "20200101.00" ++ ".csv")%string.
Proof.
  split; [exact nam_co_is_name |]. split; [exact date_folder_is_name |].
  apply (file_name_of_joined "/out" "nam-co" "20200101.00");
    [exact nam_co_is_name | exact date_folder_is_name].
Defined.

Lemma file_name_trailing_sep_witness :
  is_name "20200101.00" /\
  file_name ("/out/nam-co" ++ "/" ++ "20200101.00" ++ "/")%string
  = ("summary_table_" ++ "20200101.00" ++ "_" ++ ".csv")%string.
Proof.
  split; [exact date_folder_is_name |].
  apply (file_name_trailing_sep "/out/nam-co" "20200101.00").
  exact date_folder_is_name.
Defined.

Lemma load_files_counts_witness :
  load_files no_round (sorted (nclist "/out/w/d" sample_listing)) [101] [] []
  = Return ([[5; 60; 5000]%Q], [[5; 50; 5000]%Q]) /\
  length [[5; 60; 5000]%Q]
  = (length [101]
     * length (List.filter feeds_maxlist (nclist "/out/w/d" sample_listing)))%nat /\
  length [[5; 50; 5000]%Q]
  = (length [101]
     * length (List.filter feeds_meanlist (nclist "/out/w/d" sample_listing)))%nat.
Proof.
  split; [reflexivity |].
  apply (load_files_counts no_round (nclist "/out/w/d" sample_listing) [101]
           [[5; 60; 5000]%Q] [[5; 50; 5000]%Q]).
  reflexivity.
Defined.

Lemma short_file_index_error_witness :
  item_first (nclist "/out/w/d" short_listing) = Return (sample_max_file "/out/w/d") /\
  format_dates sample_utc (time (snd (sample_max_file "/out/w/d"))) []
  = Return ["01/01/70 00:00"; "01/01/70 01:00"; "01/01/70 05:00"] /\
  In short_avg_file (nclist "/out/w/d" short_listing) /\
  (feeds_maxlist short_avg_file = true \/ feeds_meanlist short_avg_file = true) /\
  (length (Qout (snd short_avg_file))
   < length (rivid (snd (sample_max_file "/out/w/d"))))%nat /\
  extract_summary_table_of_files no_round step_value minute_label sample_utc
    sample_minute sample_minute "/out/w/d" short_listing (rp_df one_reach)
  = Outcome None None [IndexError].
Proof.
  split; [reflexivity |]. split; [reflexivity |].
  split; [right; left; reflexivity |].
  split; [right; reflexivity |]. split; [cbn; lia |].
  apply (short_file_index_error step_value no_round minute_label sample_utc
           sample_minute sample_minute "/out/w/d"
           short_listing (rp_df one_reach) (sample_max_file "/out/w/d") short_avg_file
           ["01/01/70 00:00"; "01/01/70 01:00"; "01/01/70 05:00"]).
  - reflexivity.
  - reflexivity.
  - right; left; reflexivity.
  - right; reflexivity.
  - cbn; lia.
Defined.

Lemma sample_files_have_rows :
  forall f : string * dataset, In f (nclist "/data/max/d" sample_listing) ->
    (length (rivid (snd (sample_max_file "/data/max/d"))) <= length (Qout (snd f)))%nat.
Proof.
  intros f [<- | [<- | [<- | []]]]; cbn; lia.
Defined.

Lemma sample_time_not_empty : time (snd (sample_max_file "/data/max/d")) <> [].
Proof. discriminate. Defined.

Lemma max_in_workspace_path_witness :
  contains "max" "/data/max/d" = true /\
  item_first (nclist "/data/max/d" sample_listing)
  = Return (sample_max_file "/data/max/d") /\
  time (snd (sample_max_file "/data/max/d")) <> [] /\
  format_dates sample_utc (time (snd (sample_max_file "/data/max/d"))) []
  = Return ["01/01/70 00:00"; "01/01/70 01:00"; "01/01/70 05:00"] /\
  (forall f : string * dataset, In f (nclist "/data/max/d" sample_listing) ->
     (length (rivid (snd (sample_max_file "/data/max/d"))) <= length (Qout (snd f)))%nat) /\
  extract_summary_table_of_files no_round step_value minute_label sample_utc
    sample_minute sample_minute "/data/max/d" sample_listing (rp_df one_reach)
  = Outcome (Some "Stat Success") (Some []) [].
Proof.
  split; [reflexivity |]. split; [reflexivity |].
  split; [exact sample_time_not_empty |]. split; [reflexivity |].
  split; [exact sample_files_have_rows |].
  apply (max_in_workspace_path step_value no_round minute_label sample_utc
           sample_minute sample_minute "/data/max/d"
           sample_listing (rp_df one_reach) (sample_max_file "/data/max/d")
           ["01/01/70 00:00"; "01/01/70 01:00"; "01/01/70 05:00"]).
  - reflexivity.
  - reflexivity.
  - exact sample_time_not_empty.
  - reflexivity.
  - exact sample_files_have_rows.
Defined.


Lemma files_table_empty_witness :
  written (extract_summary_table_of_files no_round step_value minute_label sample_utc
             sample_minute sample_minute
             "/out/w/d" reachless_listing (rp_df one_reach)) = Some [] /\
  @nil row = [].
Proof.
  split; [reflexivity |].
  apply (files_table_empty step_value no_round minute_label sample_utc
           sample_minute sample_minute "/out/w/d"
           reachless_listing (rp_df one_reach) []).
  reflexivity.
Defined.

Lemma forecast_files_are_not_stat_files :
  forall f : string * dataset,
    In f [("Qout_1.nc", Dataset [101] [0; 3600; 18000] [[4; 40; 4000]%Q])] ->
    String.prefix "nces" (fst f) = false.
Proof. intros f [<- | []]. reflexivity. Defined.

Lemma no_stat_file_index_error_witness :
  (forall f : string * dataset,
     In f [("Qout_1.nc", Dataset [101] [0; 3600; 18000] [[4; 40; 4000]%Q])] ->
     String.prefix "nces" (fst f) = false) /\
  extract_summary_table_of_files no_round step_value minute_label sample_utc
    sample_minute sample_minute "/out/w/d"
    [("Qout_1.nc", Dataset [101] [0; 3600; 18000] [[4; 40; 4000]%Q])] (rp_df one_reach)
  = Outcome None None [IndexError].
Proof.
  split; [exact forecast_files_are_not_stat_files |].
  apply (no_stat_file_index_error step_value no_round minute_label sample_utc
           sample_minute sample_minute "/out/w/d"
           [("Qout_1.nc", Dataset [101] [0; 3600; 18000] [[4; 40; 4000]%Q])]
           (rp_df one_reach)).
  exact forecast_files_are_not_stat_files.
Defined.

(** ** The csv file *)

Lemma cut_last_sep_tail (p : string) : has_sep (snd (cut_last_sep p)) = false.
Proof.
  induction p as [| c rest IH]; [reflexivity |].
  cbn [cut_last_sep]. destruct (has_sep rest) eqn:E.
  - now destruct (cut_last_sep rest).
  - destruct (is_sep c) eqn:Ec; cbn [snd has_sep]; [assumption |].
    now rewrite Ec, E.
Qed.

Lemma remove_dots_has_sep (s : string) :
  has_sep s = false -> has_sep (remove_dots s) = false.
Proof.
  induction s as [| c rest IH]; [reflexivity |].
  cbn [has_sep remove_dots]. intros H. apply orb_false_iff in H as [Hc Hr].
  destruct (Ascii.eqb c "."); [now apply IH |].
  cbn [has_sep]. now rewrite Hc, IH.
Qed.

Lemma file_name_has_no_sep (workspace : string) :
  has_sep (file_name workspace) = false.
Proof.
  unfold file_name. rewrite !has_sep_app, !path_split_tail.
  rewrite cut_last_sep_tail.
  rewrite (remove_dots_has_sep _ (cut_last_sep_tail workspace)).
  reflexivity.
Qed.

(** X18. Whatever the workspace, the name of the csv file holds no
    separator, and it is the last component of the path handed to
    [to_csv]: the file is written directly in the workspace. *)
Theorem csv_in_workspace (workspace : string) :
  has_sep (file_name workspace) = false /\
  snd (path_split (csv_path workspace)) = file_name workspace.
Proof.
  pose proof (file_name_has_no_sep workspace) as Hn.
  split; [exact Hn |]. unfold csv_path.
  destruct (path_join_name workspace (file_name workspace) Hn) as (h & -> & Hh).
  now apply path_split_tail_name.
Qed.

(** ** The first column *)

(** X19. In a block that the body of the loop returns, the first field of
    row [j] is [j], whatever the reach: the blocks of two reaches do not
    differ in their first column. *)
Theorem site_summary_first_column
    (pchip_value : list Z -> list Q -> Z -> Q) (round2 : Q -> Q)
    (strftime : Z -> string) (rp_df : gmap Z thresholds)
    (dt_dates grid : list Z) (comid : Z) (maxes means : list Q)
    (block : list row) :
  site_summary pchip_value round2 rp_df dt_dates grid (map strftime grid)
               comid maxes means = Return block ->
  forall (j : nat) (r : row),
    nth_error block j = Some r -> row_comid r = Z.of_nat j.
Proof.
  intros H j r Hj.
  apply site_summary_block in H as [[Hlen _] Hcol].
  assert (nth_error (map row_comid block) j = Some (row_comid r)) as E
    by (now rewrite nth_error_map, Hj).
  rewrite Hcol, range_nth in E; [congruence |].
  rewrite <- Hlen. apply nth_error_Some. congruence.
Qed.

Lemma site_summary_first_column_witness :
  site_summary step_value no_round (rp_df one_reach) [0; 60; 300] [0; 180]
               (map minute_label [0; 180]) 101 [5; 60; 5000]%Q [5; 50; 5000]%Q
  = Return five_item_block /\
  forall (j : nat) (r : row),
    nth_error five_item_block j = Some r -> row_comid r = Z.of_nat j.
Proof.
  split; [reflexivity |].
  apply (site_summary_first_column step_value no_round minute_label (rp_df one_reach)
           [0; 60; 300] [0; 180] 101 [5; 60; 5000]%Q [5; 50; 5000]%Q five_item_block).
  reflexivity.
Defined.
